(** * generate_escape_targets: a shallow embedding and its properties

    The program under study is [dockers/generate_escape_targets.py]: it loads
    image metadata records from JSON files, removes duplicates, renders one
    Dockerfile per record and one docker-compose document for all of them.

    Python values are modelled as follows.
    - A [str] is a list of Unicode code points ([pystr]).
    - A value returned by [json.load] is a [json] tree; a JSON object is a
      Python [dict], modelled as a finite map from strings to values.
    - Printing, creating the output directory and writing files are recorded
      as a trace of [event]s; an uncaught exception ends the computation and
      keeps the trace produced so far.
    - [json.load] itself is library code, so each input file comes with what
      opening and loading it gives: [open] fails, the text does not parse, or
      a value is loaded.
    - Writing a file is [open(path, 'w')] followed by [f.write(text)] on a
      Linux file system with UTF-8 as text and file-name encoding: [open]
      refuses a name that cannot be encoded, that holds a NUL, or whose
      encoding is longer than 255 bytes; [write] refuses a text with a
      surrogate code point, after [open] has created or emptied the file.
      The output directory itself is taken to be writable, with no directory
      in the place of an output file, and standard output to accept every
      message. *)

From Stdlib Require Import NArith ZArith Ascii String.
From stdpp Require Import gmap strings list.

Open Scope N_scope.

(** ** Python strings *)

Definition pystr : Type := list N.

(** The code points of a literal of the source (all of them ASCII). *)
Definition str (s : string) : pystr := N_of_ascii <$> list_ascii_of_string s.

Definition NL : pystr := [10].
Definition DQ : pystr := [34].

(** [sub in s] on strings. *)
Fixpoint starts_with (sub s : pystr) : bool :=
  match sub, s with
  | [], _ => true
  | _ :: _, [] => false
  | a :: sub', b :: s' => bool_decide (a = b) && starts_with sub' s'
  end.

Fixpoint contains (sub s : pystr) : bool :=
  starts_with sub s ||
  match s with
  | [] => false
  | _ :: s' => contains sub s'
  end.

(** [sep.join(parts)]. *)
Fixpoint join (sep : pystr) (parts : list pystr) : pystr :=
  match parts with
  | [] => []
  | [p] => p
  | p :: rest => p ++ sep ++ join sep rest
  end.

(** [s.replace(old, new)] for a one-character [old] and [new], the only
    shape the program uses. *)
Definition replace_char (old new : N) (s : pystr) : pystr :=
  (fun c => if bool_decide (c = old) then new else c) <$> s.

(** [str.isspace] on one code point, as [str.strip()] tests it. *)
Definition is_space (c : N) : bool :=
  ((9 <=? c) && (c <=? 13)) || ((28 <=? c) && (c <=? 32))
  || (c =? 133) || (c =? 160) || (c =? 5760)
  || ((8192 <=? c) && (c <=? 8202))
  || (c =? 8232) || (c =? 8233) || (c =? 8239) || (c =? 8287) || (c =? 12288).

Fixpoint lstrip (s : pystr) : pystr :=
  match s with
  | [] => []
  | c :: s' => if is_space c then lstrip s' else s
  end.

Definition rstrip (s : pystr) : pystr := reverse (lstrip (reverse s)).

(** [s.strip()]. *)
Definition strip (s : pystr) : pystr := rstrip (lstrip s).

(** Splitting at a separator character, used to speak of the lines of a
    generated text. *)
Fixpoint split_on (sep : N) (s : pystr) : list pystr :=
  match s with
  | [] => [[]]
  | c :: s' =>
      if bool_decide (c = sep) then [] :: split_on sep s'
      else match split_on sep s' with
           | [] => [[c]]
           | l :: ls => (c :: l) :: ls
           end
  end.

Definition lines (s : pystr) : list pystr := split_on 10 s.

Definition is_ascii (c : N) : bool := c <? 128.

Definition ascii_lower (c : N) : N :=
  if (65 <=? c) && (c <=? 90) then c + 32 else c.

Definition is_lower_az (c : N) : bool := (97 <=? c) && (c <=? 122).
Definition is_digit (c : N) : bool := (48 <=? c) && (c <=? 57).

(** ** JSON values, as [json.load] returns them *)

#[warnings="-register-all"]
Inductive json : Type :=
| JNull
| JBool (b : bool)
| JInt (z : Z)
| JFloat (repr : pystr)
| JStr (s : pystr)
| JArr (items : list json)
| JObj (d : gmap pystr json).

(** [d.get(key, default)]. *)
Definition dict_get (d : gmap pystr json) (key : pystr) (dflt : json) : json :=
  default dflt (d !! key).

(** ** Records of the data model *)

Record record : Type := Record_ {
  name : pystr;
  namespace : pystr;
  description : json;
  source_file : pystr
}.

Record service_info : Type := ServiceInfo {
  service_name : pystr;
  dockerfile : pystr;
  container_name : pystr
}.

(** ** Effects: a trace of events and uncaught exceptions *)

Inductive message : Type :=
| MsgNoJsonFiles
| MsgProcessing (path : pystr)
| MsgInvalidJson (path err : pystr)
| MsgGenerated (file : pystr)
| MsgComposeWritten (file : pystr)
| MsgSummary (count : nat)
| MsgUsage
| MsgUsageCd
| MsgUsageUp
| MsgNoServices.

Inductive event : Type :=
| Print (m : message)
| Mkdir
| WriteFile (file content : pystr).

Inductive exn : Type :=
| AttributeError
| FileNotFoundError
| OSError
| ValueError
| UnicodeEncodeError.

Inductive outcome (A : Type) : Type :=
| Returns (a : A)
| Raises (e : exn).
Arguments Returns {A} a.
Arguments Raises {A} e.

Definition M (A : Type) : Type := list event * outcome A.

Definition M_ret {A} (a : A) : M A := ([], Returns a).

Definition M_bind {A B} (k : A -> M B) (m : M A) : M B :=
  match m with
  | (t, Returns a) => let '(t', r) := k a in (t ++ t', r)
  | (t, Raises e) => (t, Raises e)
  end.

#[global] Instance M_mret : MRet M := @M_ret.
#[global] Instance M_mbind : MBind M := @M_bind.

Definition emit (e : event) : M unit := ([e], Returns tt).
Definition print (m : message) : M unit := emit (Print m).
Definition raise {A} (e : exn) : M A := ([], Raises e).

Definition trace {A} (m : M A) : list event := m.1.
Definition result {A} (m : M A) : outcome A := m.2.

(** ** Writing a file *)

Definition is_surrogate (c : N) : bool := (55296 <=? c) && (c <=? 57343).

(** The surrogates U+DC80 to U+DCFF, with which a Python [str] holds the
    bytes of a file name that are not UTF-8. *)
Definition is_escaped_byte (c : N) : bool := (56448 <=? c) && (c <=? 56575).

(** What [f.write] can encode, with [encoding='utf-8']. *)
Definition utf8_encodable (c : N) : bool := negb (is_surrogate c).

(** What [open] can encode in a file name (UTF-8 with surrogateescape). *)
Definition name_encodable (c : N) : bool :=
  negb (is_surrogate c) || is_escaped_byte c.

(** The number of bytes of a code point in a file name. *)
Definition utf8_size (c : N) : N :=
  if c <? 128 then 1
  else if c <? 2048 then 2
  else if is_escaped_byte c then 1
  else if c <? 65536 then 3
  else 4.

Definition encoded_length (s : pystr) : N :=
  foldr (fun c n => utf8_size c + n) 0 s.

Definition NAME_MAX : N := 255.

(** The exception that [open(path, 'w')] raises for the file name [file] of
    the output directory, if any. *)
Definition open_error (file : pystr) : option exn :=
  if negb (forallb name_encodable file) then Some UnicodeEncodeError
  else if bool_decide (0 ∈ file) then Some ValueError
  else if NAME_MAX <? encoded_length file then Some OSError
  else None.

(** [with open(path, 'w', encoding='utf-8') as f: f.write(content)]. *)
Definition write_file (file content : pystr) : M unit :=
  match open_error file with
  | Some e => raise e
  | None =>
      if forallb utf8_encodable content then emit (WriteFile file content)
      else emit (WriteFile file []);; raise UnicodeEncodeError
  end.

(** A Python [for] loop whose body updates the loop's variables [S]. *)
Fixpoint for_each {A S} (body : S -> A -> M S) (l : list A) (s : S) : M S :=
  match l with
  | [] => mret s
  | a :: l' => s' ← body s a; for_each body l' s'
  end.

(** ** The program *)

Section Program.

(** Two services of the Python runtime are left open: [str.lower] on a
    string that is not pure ASCII (the Unicode case tables), and the text
    that an f-string produces for a value that is not a string. *)
Variable unicode_lower : pystr -> pystr.
Variable format_value : json -> pystr.

(** [s.lower()]: CPython lowers a pure ASCII string bytewise and consults
    the Unicode tables otherwise. *)
Definition lower (s : pystr) : pystr :=
  if forallb is_ascii s then ascii_lower <$> s else unicode_lower s.

(** [f"{v}"]. *)
Definition format (v : json) : pystr :=
  match v with
  | JStr s => s
  | _ => format_value v
  end.

Definition alpine_tools : list pystr :=
  [str "socat"; str "curl"; str "wget"; str "netcat-openbsd"; str "strace";
   str "procps"; str "iproute2"; str "lsof"; str "findutils"; str "bash";
   str "less"].

Definition debian_tools : list pystr :=
  [str "socat"; str "curl"; str "wget"; str "netcat-traditional"; str "strace";
   str "procps"; str "iproute2"; str "lsof"; str "findutils"; str "bash";
   str "less"].

Definition TOOLS_BY_DISTRO : gmap pystr (list pystr) :=
  <[str "debian" := debian_tools]> (<[str "alpine" := alpine_tools]> ∅).

Definition guess_base_image (name : pystr) : pystr :=
  let name_lower := lower name in
  if contains (str "alpine") name_lower then str "alpine:latest"
  else if contains (str "ubuntu") name_lower || contains (str "debian") name_lower
  then str "debian:bookworm-slim"
  else str "alpine:latest".

Definition detect_distro (base_image : pystr) : pystr :=
  if contains (str "alpine") base_image then str "alpine"
  else if contains (str "debian") base_image || contains (str "ubuntu") base_image
  then str "debian"
  else str "alpine".

Definition sanitize_service_name (name : pystr) : pystr :=
  (fun c => if is_lower_az c || is_digit c || (c =? 45) || (c =? 95)
            then c else 95) <$> lower name.

(** The local variables of [generate_dockerfile] that the template uses. *)
Record dockerfile_vars : Type := DockerfileVars {
  full_name : pystr;
  base_image : pystr;
  distro : pystr;
  tools : list pystr;
  install_cmd : pystr
}.

Definition generate_dockerfile_vars (r : record) : dockerfile_vars :=
  let full_name := namespace r ++ str "/" ++ name r in
  let base_image := guess_base_image (name r) in
  let distro := detect_distro base_image in
  let tools :=
    default (default [] (TOOLS_BY_DISTRO !! str "alpine"))
            (TOOLS_BY_DISTRO !! distro) in
  let install_cmd :=
    if bool_decide (distro = str "alpine")
    then str "apk add --no-cache " ++ join (str " ") tools
    else str "apt-get update && apt-get install -y --no-install-recommends "
         ++ join (str " ") tools ++ str " && rm -rf /var/lib/apt/lists/*" in
  DockerfileVars full_name base_image distro tools install_cmd.

Definition dockerfile_template (r : record) (v : dockerfile_vars) : pystr :=
  str "# Escape target container (for research only)" ++ NL ++
  str "# Based on: " ++ full_name v ++ NL ++
  str "# Description: " ++ format (description r) ++ NL ++
  NL ++
  str "FROM " ++ base_image v ++ NL ++
  NL ++
  str "LABEL org.security.dataset=" ++ DQ ++ str "container-escape-target" ++ DQ ++ NL ++
  str "LABEL source.image=" ++ DQ ++ full_name v ++ DQ ++ NL ++
  NL ++
  str "RUN " ++ install_cmd v ++ NL ++
  NL ++
  str "# Add non-root user (but root remains default)" ++ NL ++
  str "RUN adduser -D -s /bin/sh attacker 2>/dev/null || true" ++ NL ++
  NL ++
  str "EXPOSE 8080" ++ NL ++
  NL ++
  str "CMD [" ++ DQ ++ str "sh" ++ DQ ++ str ", " ++ DQ ++ str "-c" ++ DQ ++ str ", " ++ DQ ++
  str "while true; do echo 'HTTP/1.1 200 OK\r\n\r\nEscape Target Active' | nc -l -p 8080 -s 0.0.0.0 2>/dev/null; done" ++
  DQ ++ str "]" ++ NL.

Definition generate_dockerfile (r : record) : pystr :=
  strip (dockerfile_template r (generate_dockerfile_vars r)).

(** An input file found by [input_dir.glob("*.json")], with what [open] and
    [json.load] make of it: [open] raises an exception (a directory, an
    unreadable file), [json.load] raises, or a value is loaded. *)
Inductive load_result : Type :=
| OpenError (e : exn)
| LoadError (err : pystr)
| Loaded (data : json).

Record json_file : Type := JsonFile {
  file_path : pystr;
  file_name : pystr;
  file_load : load_result
}.

(** [v.strip()] on a JSON value: only a [str] has the method. *)
Definition strip_method (v : json) : M pystr :=
  match v with
  | JStr s => mret (strip s)
  | _ => raise AttributeError
  end.

Definition is_empty (s : pystr) : bool :=
  match s with [] => true | _ => false end.

(** The body of [for item in items]. *)
Definition load_item (f : json_file) (all_records : list record) (item : json)
  : M (list record) :=
  match item with
  | JObj d =>
      name ← strip_method (dict_get d (str "name") (JStr []));
      namespace ← strip_method (dict_get d (str "namespace") (JStr []));
      if is_empty name || is_empty namespace then mret all_records
      else
        let record :=
          Record_ name namespace (dict_get d (str "description") (JStr []))
                  (file_name f) in
        mret (all_records ++ [record])
  | _ => mret all_records
  end.

(** The body of [for json_file in json_files]. *)
Definition load_file (all_records : list record) (f : json_file)
  : M (list record) :=
  print (MsgProcessing (file_path f));;
  match file_load f with
  | OpenError e => raise e
  | LoadError err =>
      print (MsgInvalidJson (file_path f) err);;
      mret all_records
  | Loaded data =>
      let items := match data with JArr l => l | _ => [data] end in
      for_each (load_item f) items all_records
  end.

(** The de-duplication loop, with its [seen] set. *)
Definition dedup_step (st : gset (pystr * pystr) * list record) (r : record)
  : gset (pystr * pystr) * list record :=
  let '(seen, unique_records) := st in
  let key := (namespace r, name r) in
  if bool_decide (key ∉ seen)
  then ({[key]} ∪ seen, unique_records ++ [r])
  else (seen, unique_records).

Definition dedup (all_records : list record) : list record :=
  (foldl dedup_step (∅, []) all_records).2.

Definition safe_name (r : record) : pystr :=
  replace_char 46 95 (replace_char 58 95 (replace_char 47 95
    (namespace r ++ str "_" ++ name r))).

Definition dockerfile_name (r : record) : pystr :=
  str "Dockerfile." ++ safe_name r.

Definition make_service_info (r : record) : service_info :=
  ServiceInfo (sanitize_service_name (safe_name r))
              (str "Dockerfile." ++ safe_name r)
              (str "escape-target-" ++ safe_name r).

(** The body of [for record in unique_records]. *)
Definition emit_record (service_info_list : list service_info) (r : record)
  : M (list service_info) :=
  write_file (dockerfile_name r) (generate_dockerfile r);;
  let service_info_list := service_info_list ++ [make_service_info r] in
  print (MsgGenerated (dockerfile_name r));;
  mret service_info_list.

Definition process_json_files (json_files : list json_file)
  : M (list service_info) :=
  match json_files with
  | [] => print MsgNoJsonFiles;; mret []
  | _ :: _ =>
      all_records ← for_each load_file json_files [];
      let unique_records := dedup all_records in
      for_each emit_record unique_records []
  end.

Definition compose_block (info : service_info) : pystr :=
  str "  " ++ service_name info ++ str ":" ++ NL ++
  str "    build:" ++ NL ++
  str "      context: ." ++ NL ++
  str "      dockerfile: " ++ dockerfile info ++ NL ++
  str "    container_name: " ++ container_name info ++ NL ++
  str "    privileged: false" ++ NL ++
  str "    cap_add:" ++ NL ++
  str "      - SYS_PTRACE" ++ NL ++
  str "      - DAC_READ_SEARCH" ++ NL ++
  str "    security_opt:" ++ NL ++
  str "      - apparmor:unconfined" ++ NL ++
  str "      - seccomp:unconfined" ++ NL ++
  str "    volumes:" ++ NL ++
  str "      - /:/host:ro" ++ NL ++
  str "      - /var/run/docker.sock:/var/run/docker.sock:ro" ++ NL ++
  str "    network_mode: bridge" ++ NL ++
  str "    ports:" ++ NL ++
  str "      - " ++ DQ ++ str "8080" ++ DQ ++ NL ++
  str "    restart: unless-stopped" ++ NL ++
  str "    stdin_open: true" ++ NL ++
  str "    tty: true" ++ NL.

Definition compose_file_name : pystr := str "docker-compose.escape-targets.yml".

Definition compose_content (service_info_list : list service_info) : pystr :=
  foldl (fun acc info => acc ++ compose_block info)
        (str "services:" ++ NL) service_info_list.

Definition generate_docker_compose (service_info_list : list service_info)
  : M unit :=
  write_file compose_file_name (compose_content service_info_list);;
  print (MsgComposeWritten compose_file_name).

(** [main], after the command line is parsed: [input] is [None] when the
    input directory does not exist and otherwise lists its [*.json] files. *)
Definition main (input : option (list json_file)) : M unit :=
  emit Mkdir;;
  match input with
  | None => raise FileNotFoundError
  | Some json_files =>
      service_info_list ← process_json_files json_files;
      match service_info_list with
      | _ :: _ =>
          generate_docker_compose service_info_list;;
          print (MsgSummary (length service_info_list));;
          print MsgUsage;;
          print MsgUsageCd;;
          print MsgUsageUp
      | [] => print MsgNoServices
      end
  end.

End Program.

(** ** Notions used to state the properties *)

(** The de-duplication key of a record. *)
Definition key (r : record) : pystr * pystr := (namespace r, name r).

(** The records with a given key, in the order of the list. *)
Definition with_key (k : pystr * pystr) (l : list record) : list record :=
  filter (fun r => key r = k) l.

(** The files written during a run, in the order of the writes. *)
Definition written_files (t : list event) : list (pystr * pystr) :=
  omap (fun e => match e with
                 | WriteFile file content => Some (file, content)
                 | _ => None
                 end) t.

(** The files that a run has created or replaced, each with the content of
    its last write. Files that the output directory held before the run and
    that the run did not write are not part of it. *)
Definition file_system (t : list event) : gmap pystr pystr :=
  foldl (fun fs w => <[w.1 := w.2]> fs) ∅ (written_files t).

(** The output directory after a run that found the files [before] in it:
    [main] creates the directory if needed and removes nothing. *)
Definition directory_after (before : gmap pystr pystr) (t : list event)
  : gmap pystr pystr :=
  file_system t ∪ before.

(** Case-insensitive substring test, through [str.lower] as the code does. *)
Definition mentions (unicode_lower : pystr -> pystr) (word name : pystr) : bool :=
  contains word (lower unicode_lower name).

(** The two families of the classifier: base image, tool list and install
    command. *)
Definition alpine_family (v : dockerfile_vars) : Prop :=
  base_image v = str "alpine:latest" /\
  distro v = str "alpine" /\
  tools v = alpine_tools /\
  install_cmd v = str "apk add --no-cache " ++ join (str " ") alpine_tools.

Definition debian_family (v : dockerfile_vars) : Prop :=
  base_image v = str "debian:bookworm-slim" /\
  distro v = str "debian" /\
  tools v = debian_tools /\
  install_cmd v =
    str "apt-get update && apt-get install -y --no-install-recommends "
    ++ join (str " ") debian_tools ++ str " && rm -rf /var/lib/apt/lists/*".

(** The characters allowed in a DNS-label-safe service name. *)
Definition dns_safe (c : N) : Prop :=
  (97 <= c <= 122) \/ (48 <= c <= 57) \/ c = 95 \/ c = 45.

(** A field of a parsed item that is absent, or empty once trimmed. *)
Definition field_blank (item : json) (field : pystr) : bool :=
  match item with
  | JObj d =>
      match d !! field with
      | None => true
      | Some (JStr s) => is_empty (strip s)
      | Some _ => false
      end
  | _ => true
  end.

(** A field of a parsed item that is present without being a string. *)
Definition field_not_string (item : json) (field : pystr) : bool :=
  match item with
  | JObj d =>
      match d !! field with
      | None | Some (JStr _) => false
      | Some _ => true
      end
  | _ => false
  end.

(** The trimmed text of a string field. *)
Definition field_text (item : json) (field : pystr) : pystr :=
  match item with
  | JObj d => match d !! field with Some (JStr s) => strip s | _ => [] end
  | _ => []
  end.

(** The record that the loader makes of a kept item. *)
Definition record_of (f : json_file) (item : json) : record :=
  Record_ (field_text item (str "name")) (field_text item (str "namespace"))
          (match item with
           | JObj d => default (JStr []) (d !! str "description")
           | _ => JStr []
           end)
          (file_name f).

(** De-duplication as a function of the keys already seen: what the loop of
    [dedup] appends from a list of records. *)
Fixpoint dedup_from (seen : gset (pystr * pystr)) (l : list record) : list record :=
  match l with
  | [] => []
  | r :: l' =>
      if bool_decide (key r ∈ seen) then dedup_from seen l'
      else r :: dedup_from ({[key r]} ∪ seen) l'
  end.

(** What the generation loop does for one record whose Dockerfile can be
    written: it writes the Dockerfile and reports it. *)
Definition record_events (unicode_lower : pystr -> pystr)
    (format_value : json -> pystr) (r : record) : list event :=
  [WriteFile (dockerfile_name r) (generate_dockerfile unicode_lower format_value r);
   Print (MsgGenerated (dockerfile_name r))].

(** Two runs that end the same way and write the same files; they may
    differ in what they print. *)
Definition same_outcome {A} (m1 m2 : M A) : Prop :=
  result m1 = result m2 /\
  written_files (trace m1) = written_files (trace m2).

(** ** Sample inputs *)

(** A runtime without case tables beyond ASCII, and one rendering of
    non-string values, to evaluate the program on concrete inputs. *)
Definition ascii_only_lower : pystr -> pystr := fmap ascii_lower.
Definition blank_format : json -> pystr := fun _ => [].

Definition obj (fields : list (pystr * json)) : json := JObj (list_to_map fields).

Definition curl_item : json :=
  obj [(str "name", JStr (str "curl")); (str "namespace", JStr (str "library"));
       (str "description", JStr (str "test"))].

Definition curl_record (fname : pystr) : record :=
  Record_ (str "curl") (str "library") (JStr (str "test")) fname.

Definition sample_file (data : json) : json_file :=
  JsonFile (str "docker_hub_metadata/images.json") (str "images.json") (Loaded data).

(** A second item with the key of [curl_item] and another description. *)
Definition curl_item_again : json :=
  obj [(str "name", JStr (str " curl")); (str "namespace", JStr (str "library "));
       (str "description", JStr (str "again"))].

(** An image name that mentions two distributions. *)
Definition ubuntu_alpine_record : record :=
  Record_ (str "ubuntu-alpine") (str "library") (JStr []) (str "images.json").

(** Two records with different keys and one sanitized key. *)
Definition dotted_item : json :=
  obj [(str "name", JStr (str "c")); (str "namespace", JStr (str "a.b"))].
Definition underscored_item : json :=
  obj [(str "name", JStr (str "b_c")); (str "namespace", JStr (str "a"))].

(** Items with a missing or ill-typed field. *)
Definition numeric_namespace_item : json := obj [(str "namespace", JInt 5)].
Definition numeric_name_dict : gmap pystr json :=
  list_to_map [(str "name", JInt 7); (str "namespace", JStr (str "library"))].
Definition numeric_name_item : json := JObj numeric_name_dict.
Definition blank_name_item : json :=
  obj [(str "name", JStr (str "  ")); (str "namespace", JStr (str "library"))].

(** ** Notions for the properties of whole runs *)

(** The items of a loaded file: the elements of an array, or the one value. *)
Definition items_of (data : json) : list json :=
  match data with JArr l => l | _ => [data] end.

(** An item that the loader reads without raising: its name and namespace,
    when present, are strings. *)
Definition item_well_typed (item : json) : bool :=
  negb (field_not_string item (str "name"))
  && negb (field_not_string item (str "namespace")).

(** The exception with which loading a file ends, if any: [open] fails, or
    an item is ill-typed. *)
Definition file_failure (f : json_file) : option exn :=
  match file_load f with
  | OpenError e => Some e
  | LoadError _ => None
  | Loaded data =>
      if forallb item_well_typed (items_of data) then None
      else Some AttributeError
  end.

(** The exception with which loading a list of files ends, if any: that of
    the first file that fails. *)
Fixpoint load_failure (fs : list json_file) : option exn :=
  match fs with
  | [] => None
  | f :: fs' =>
      match file_failure f with
      | Some e => Some e
      | None => load_failure fs'
      end
  end.

(** A file name and a text that [write_file] accepts. *)
Definition writable (file content : pystr) : bool :=
  match open_error file with
  | Some _ => false
  | None => forallb utf8_encodable content
  end.

(** A record whose Dockerfile can be written. *)
Definition record_writable (unicode_lower : pystr -> pystr)
    (format_value : json -> pystr) (r : record) : bool :=
  writable (dockerfile_name r) (generate_dockerfile unicode_lower format_value r).

(** The records that a well-typed item and a well-typed file contribute. *)
Definition item_records (f : json_file) (item : json) : list record :=
  if field_blank item (str "name") || field_blank item (str "namespace")
  then [] else [record_of f item].

Definition file_records (f : json_file) : list record :=
  match file_load f with
  | OpenError _ | LoadError _ => []
  | Loaded data => items_of data ≫= item_records f
  end.

(** A string that is not empty and has no whitespace at either end. *)
Definition trimmed (s : pystr) : Prop := s <> [] /\ strip s = s.

(** A record as the loader makes them from the files [fs]. *)
Definition record_valid (fs : list json_file) (r : record) : Prop :=
  trimmed (name r) /\ trimmed (namespace r) /\ source_file r ∈ file_name <$> fs.

(** The Dockerfiles written for a list of records, in order. *)
Definition dockerfiles (unicode_lower : pystr -> pystr)
    (format_value : json -> pystr) (rs : list record) : list (pystr * pystr) :=
  (fun r => (dockerfile_name r, generate_dockerfile unicode_lower format_value r))
    <$> rs.

(** More sample inputs. *)
Definition broken_file : json_file :=
  JsonFile (str "docker_hub_metadata/broken.json") (str "broken.json")
           (LoadError (str "Expecting value")).

(** A [*.json] entry that cannot be opened, such as a directory. *)
Definition unopenable_file : json_file :=
  JsonFile (str "docker_hub_metadata/dir.json") (str "dir.json") (OpenError OSError).

(** An item whose name holds a NUL character. *)
Definition nul_item : json :=
  obj [(str "name", JStr [97; 0; 98]); (str "namespace", JStr (str "library"))].

Definition nul_record : record :=
  Record_ [97; 0; 98] (str "library") (JStr []) (str "images.json").

Definition nginx_item : json :=
  obj [(str "name", JStr (str "nginx")); (str "namespace", JStr (str "library"))].

Definition nginx_record : record :=
  Record_ (str "nginx") (str "library") (JStr []) (str "images.json").

(** ** Properties of the string operations *)

Example strip_trims_both_ends :
  strip (str "  library ") = str "library" /\ strip ([9; 160; 10]) = [].
Proof. by vm_compute. Qed.

Example lower_is_ascii_on_ascii (ul : pystr -> pystr) :
  lower ul (str "Ubuntu-22.04") = str "ubuntu-22.04".
Proof. by vm_compute. Qed.

Example lower_defers_to_unicode (ul : pystr -> pystr) :
  lower ul [304; 65] = ul [304; 65].
Proof. by vm_compute. Qed.

Example sanitize_service_name_example (ul : pystr -> pystr) :
  sanitize_service_name ul (str "Library_My-App@2") = str "library_my-app_2".
Proof. by vm_compute. Qed.

Example join_example :
  join (str " ") [str "a"; str "b"; str "c"] = str "a b c".
Proof. by vm_compute. Qed.

Lemma starts_with_prefix (sub s : pystr) :
  starts_with sub s = true <-> exists post, s = sub ++ post.
Proof.
  revert s; induction sub as [|a sub IH]; intros s; simpl.
  - split; [intros _; by exists s | done].
  - destruct s as [|b s].
    + split; [done | intros [post H]; discriminate H].
    + rewrite andb_true_iff, bool_decide_eq_true, IH. split.
      * intros [-> [post ->]]. by exists post.
      * intros [post H]. injection H as -> ->. eauto.
Qed.

(** [contains] is the substring relation. *)
Lemma contains_substring (sub s : pystr) :
  contains sub s = true <-> exists pre post, s = pre ++ sub ++ post.
Proof.
  induction s as [|c s IH]; simpl.
  - rewrite orb_false_r, starts_with_prefix. split.
    + intros [post H]. by exists [], post.
    + intros [pre [post H]]. destruct pre; [by exists post | discriminate H].
  - rewrite orb_true_iff, starts_with_prefix, IH. split.
    + intros [[post H] | [pre [post H]]].
      * by exists [], post.
      * exists (c :: pre), post. by rewrite H.
    + intros [[|c' pre] [post H]].
      * left. by exists post.
      * right. injection H as -> ->. by exists pre, post.
Qed.

Lemma replace_char_removes (old new : N) (s : pystr) :
  old <> new -> old ∉ replace_char old new s.
Proof.
  intros Hne Hin. unfold replace_char in Hin.
  apply list_elem_of_fmap in Hin as [c [Hc _]].
  case_bool_decide; congruence.
Qed.

Lemma replace_char_keeps_out (c old new : N) (s : pystr) :
  c <> new -> c ∉ s -> c ∉ replace_char old new s.
Proof.
  intros Hne Hs Hin. unfold replace_char in Hin.
  apply list_elem_of_fmap in Hin as [c' [Hc Hc']].
  case_bool_decide; subst; done.
Qed.

Lemma sanitize_service_name_safe (ul : pystr -> pystr) (s : pystr) :
  Forall dns_safe (sanitize_service_name ul s).
Proof.
  unfold sanitize_service_name. apply Forall_fmap, Forall_true. intros c. simpl.
  unfold dns_safe, is_lower_az, is_digit.
  destruct (97 <=? c) eqn:E1, (c <=? 122) eqn:E2, (48 <=? c) eqn:E3,
    (c <=? 57) eqn:E4, (c =? 45) eqn:E5, (c =? 95) eqn:E6; simpl;
    rewrite ?N.leb_le, ?N.eqb_eq in *; auto.
Qed.

(** ** Properties of the effect monad *)

Lemma bind_returns {A B} (t : list event) (a : A) (k : A -> M B) :
  ((t, Returns a) ≫= k) = (t ++ (k a).1, (k a).2).
Proof. unfold mbind, M_mbind, M_bind. by destruct (k a). Qed.

Lemma bind_raises {A B} (t : list event) (e : exn) (k : A -> M B) :
  ((t, Raises e) ≫= k) = (t, Raises e).
Proof. done. Qed.

Lemma bind_ret {A B} (a : A) (k : A -> M B) : (mret a ≫= k) = k a.
Proof. unfold mret, M_mret, M_ret. rewrite bind_returns. by destruct (k a). Qed.

Lemma bind_emit {B} (e : event) (k : unit -> M B) :
  (emit e ≫= k) = (e :: (k tt).1, (k tt).2).
Proof. unfold emit. by rewrite bind_returns. Qed.

Lemma bind_assoc {A B C} (m : M A) (k : A -> M B) (h : B -> M C) :
  ((m ≫= k) ≫= h) = (m ≫= fun a => k a ≫= h).
Proof.
  destruct m as [t [a|e]]; [|done].
  unfold mbind, M_mbind, M_bind.
  destruct (k a) as [t' [b|e]]; [|done].
  destruct (h b) as [t'' r]. by rewrite app_assoc.
Qed.

Lemma for_each_nil {A S} (body : S -> A -> M S) (s : S) :
  for_each body [] s = mret s.
Proof. done. Qed.

Lemma for_each_cons {A S} (body : S -> A -> M S) (a : A) (l : list A) (s : S) :
  for_each body (a :: l) s = (body s a ≫= for_each body l).
Proof. done. Qed.

Lemma for_each_app {A S} (body : S -> A -> M S) (l1 l2 : list A) (s : S) :
  for_each body (l1 ++ l2) s = (for_each body l1 s ≫= for_each body l2).
Proof.
  revert s; induction l1 as [|a l1 IH]; intros s.
  - by rewrite for_each_nil, bind_ret.
  - rewrite <- app_comm_cons, !for_each_cons, bind_assoc.
    destruct (body s a) as [t [s'|e]]; [|done].
    by rewrite !bind_returns, IH.
Qed.

(** ** Properties of the de-duplication loop *)

Lemma foldl_dedup_step (seen : gset (pystr * pystr)) (uniq l : list record) :
  (foldl dedup_step (seen, uniq) l).2 = uniq ++ dedup_from seen l.
Proof.
  revert seen uniq; induction l as [|r l IH]; intros seen uniq; simpl.
  - by rewrite app_nil_r.
  - fold (key r). destruct (decide (key r ∈ seen)) as [Hin|Hin].
    + rewrite (bool_decide_eq_false_2 (key r ∉ seen)) by auto.
      rewrite (bool_decide_eq_true_2 (key r ∈ seen)) by done. apply IH.
    + rewrite (bool_decide_eq_true_2 (key r ∉ seen)) by done.
      rewrite (bool_decide_eq_false_2 (key r ∈ seen)) by done.
      by rewrite IH, <- app_assoc.
Qed.

Lemma dedup_dedup_from (l : list record) : dedup l = dedup_from ∅ l.
Proof. unfold dedup. by rewrite foldl_dedup_step. Qed.

Lemma dedup_from_sublist (seen : gset (pystr * pystr)) (l : list record) :
  sublist (dedup_from seen l) l.
Proof.
  revert seen; induction l as [|r l IH]; intros seen; simpl; [done|].
  case_bool_decide.
  - by apply sublist_cons.
  - by apply sublist_skip.
Qed.

Lemma dedup_from_fresh (seen : gset (pystr * pystr)) (l : list record) :
  Forall (fun r => key r ∉ seen) (dedup_from seen l).
Proof.
  revert seen; induction l as [|r l IH]; intros seen; simpl; [done|].
  case_bool_decide; [done|]. constructor; [done|].
  eapply Forall_impl; [apply IH|]. intros r'. simpl. set_solver.
Qed.

Lemma dedup_from_NoDup (seen : gset (pystr * pystr)) (l : list record) :
  NoDup (key <$> dedup_from seen l).
Proof.
  revert seen; induction l as [|r l IH]; intros seen; simpl; [constructor|].
  case_bool_decide; [done|]. rewrite fmap_cons. constructor; [|done].
  intros Hin. apply list_elem_of_fmap in Hin as [r' [Hk Hr']].
  pose proof (dedup_from_fresh ({[key r]} ∪ seen) l) as Hf.
  rewrite Forall_forall in Hf. apply (Hf r' Hr').
  rewrite <- Hk. apply elem_of_union_l. by apply elem_of_singleton.
Qed.

Lemma dedup_from_with_key (k : pystr * pystr) (seen : gset (pystr * pystr))
    (l : list record) :
  with_key k (dedup_from seen l) =
  if bool_decide (k ∈ seen) then [] else take 1 (with_key k l).
Proof.
  unfold with_key.
  revert seen; induction l as [|r l IH]; intros seen; simpl.
  - by case_bool_decide.
  - destruct (decide (key r = k)) as [Hk|Hk].
    + rewrite (filter_cons_True _ r l) by done.
      case_bool_decide as Hr.
      * rewrite IH. subst k. by rewrite bool_decide_eq_true_2.
      * rewrite filter_cons_True by done. rewrite IH. subst k.
        rewrite bool_decide_eq_true_2 by set_solver.
        by rewrite bool_decide_eq_false_2.
    + rewrite (filter_cons_False _ r l) by done.
      case_bool_decide as Hr.
      * apply IH.
      * rewrite filter_cons_False by done. rewrite IH.
        assert (k ∈ {[key r]} ∪ seen <-> k ∈ seen) as Hiff.
        { rewrite elem_of_union, elem_of_singleton. intuition congruence. }
        by rewrite (bool_decide_ext _ _ Hiff).
Qed.

(** ** Properties of the loops of [process_json_files] *)

Section Loops.

Variable ul : pystr -> pystr.
Variable fv : json -> pystr.

Lemma written_files_app (t1 t2 : list event) :
  written_files (t1 ++ t2) = written_files t1 ++ written_files t2.
Proof. apply omap_app. Qed.

Lemma same_outcome_bind {A B} (m1 m2 : M A) (k : A -> M B) :
  same_outcome m1 m2 -> same_outcome (m1 ≫= k) (m2 ≫= k).
Proof.
  destruct m1 as [t1 [a1|e1]], m2 as [t2 [a2|e2]];
    intros [Hr Hw]; simpl in Hr, Hw; try discriminate Hr.
  - injection Hr as ->. rewrite !bind_returns. split; simpl; [done|].
    by rewrite !written_files_app, Hw.
  - injection Hr as ->. by rewrite !bind_raises.
Qed.

Lemma write_file_writable (file content : pystr) :
  writable file content = true ->
  write_file file content = emit (WriteFile file content).
Proof.
  unfold writable, write_file. destruct (open_error file); [done|].
  by intros ->.
Qed.

Lemma write_file_refused (file content : pystr) :
  writable file content = false ->
  exists t e, write_file file content = (t, Raises e)
              /\ (t = [] \/ t = [WriteFile file []]).
Proof.
  unfold writable, write_file. destruct (open_error file) as [e|].
  - intros _. exists [], e. auto.
  - intros ->. exists [WriteFile file []], UnicodeEncodeError. auto.
Qed.

Lemma emit_record_eq (acc : list service_info) (r : record) :
  record_writable ul fv r = true ->
  emit_record ul fv acc r =
  (record_events ul fv r, Returns (acc ++ [make_service_info ul r])).
Proof.
  intros H. unfold emit_record. by rewrite write_file_writable.
Qed.

Lemma emit_record_raises (acc : list service_info) (r : record) :
  record_writable ul fv r = false ->
  exists t e, emit_record ul fv acc r = (t, Raises e)
              /\ (t = [] \/ t = [WriteFile (dockerfile_name r) []]).
Proof.
  intros H. unfold emit_record.
  destruct (write_file_refused _ _ H) as (t & e & -> & Ht).
  exists t, e. by rewrite bind_raises.
Qed.

Lemma for_each_emit_record (rs : list record) (acc : list service_info) :
  forallb (record_writable ul fv) rs = true ->
  for_each (emit_record ul fv) rs acc =
  (rs ≫= record_events ul fv, Returns (acc ++ (make_service_info ul <$> rs))).
Proof.
  revert acc; induction rs as [|r rs IH]; intros acc.
  - intros _. rewrite for_each_nil. simpl. by rewrite app_nil_r.
  - cbn [forallb]. intros [Hr Hrs]%andb_true_iff.
    rewrite for_each_cons, emit_record_eq, bind_returns, IH by done. simpl.
    by rewrite <- app_assoc.
Qed.

(** The entries of a generation loop that returns are those of its records. *)
Lemma for_each_emit_record_result (rs : list record)
    (acc l : list service_info) :
  result (for_each (emit_record ul fv) rs acc) = Returns l ->
  l = acc ++ (make_service_info ul <$> rs).
Proof.
  revert acc; induction rs as [|r rs IH]; intros acc.
  - rewrite for_each_nil. simpl. intros [= <-]. by rewrite app_nil_r.
  - rewrite for_each_cons.
    destruct (record_writable ul fv r) eqn:Hr.
    + rewrite emit_record_eq, bind_returns by done. unfold result. cbn [snd].
      intros H. apply IH in H. by rewrite H, <- app_assoc.
    + destruct (emit_record_raises acc r Hr) as (t & e & -> & _).
      by rewrite bind_raises.
Qed.

Lemma written_files_record_events (rs : list record) :
  written_files (rs ≫= record_events ul fv) =
  (fun r => (dockerfile_name r, generate_dockerfile ul fv r)) <$> rs.
Proof.
  induction rs as [|r rs IH]; [done|].
  rewrite bind_cons, written_files_app, IH. done.
Qed.

Lemma process_json_files_cons (f : json_file) (fs : list json_file) :
  process_json_files ul fv (f :: fs) =
  (for_each load_file (f :: fs) [] ≫= fun all_records =>
     for_each (emit_record ul fv) (dedup all_records) []).
Proof. done. Qed.

(** A file that does not parse leaves the records as they are. *)
Lemma load_file_invalid (path fname err : pystr) (acc : list record) :
  load_file acc (JsonFile path fname (LoadError err)) =
  ([Print (MsgProcessing path); Print (MsgInvalidJson path err)], Returns acc).
Proof. done. Qed.

(** The services of a run that returns are those of a list of records. *)
Lemma process_json_files_result (fs : list json_file) (l : list service_info) :
  result (process_json_files ul fv fs) = Returns l ->
  exists rs, l = make_service_info ul <$> rs.
Proof.
  destruct fs as [|f fs].
  - simpl. intros [= <-]. by exists [].
  - rewrite process_json_files_cons.
    destruct (for_each load_file (f :: fs) []) as [t [all|e]]; [|done].
    rewrite bind_returns. unfold result. cbn [snd]. intros H.
    apply for_each_emit_record_result in H. eauto.
Qed.

End Loops.

(** ** The classifier *)

Lemma alpine_base_is_alpine_family (ul : pystr -> pystr) (r : record) :
  guess_base_image ul (name r) = str "alpine:latest" ->
  alpine_family (generate_dockerfile_vars ul r).
Proof.
  intros Hb. unfold alpine_family, generate_dockerfile_vars.
  rewrite Hb. repeat split.
Qed.

Lemma debian_base_is_debian_family (ul : pystr -> pystr) (r : record) :
  guess_base_image ul (name r) = str "debian:bookworm-slim" ->
  debian_family (generate_dockerfile_vars ul r).
Proof.
  intros Hb. unfold debian_family, generate_dockerfile_vars.
  rewrite Hb. repeat split.
Qed.

(** C1, as the claim states it, fails: the name [ubuntu-alpine] contains
    "ubuntu", and yet it is classified in the alpine family and not in the
    debian family. *)
Lemma ubuntu_alpine_is_alpine :
  mentions ascii_only_lower (str "ubuntu") (name ubuntu_alpine_record) = true /\
  alpine_family (generate_dockerfile_vars ascii_only_lower ubuntu_alpine_record) /\
  ~ debian_family (generate_dockerfile_vars ascii_only_lower ubuntu_alpine_record).
Proof.
  split; [done|]. split.
  - by apply alpine_base_is_alpine_family.
  - intros [Hb _]. vm_compute in Hb. discriminate Hb.
Qed.

(** C1, amended: classification is decided by case-insensitive substring
    search in which "alpine" takes precedence. A name that contains "alpine"
    yields the alpine family (base image, tool list, apk install command),
    also when it contains "ubuntu" or "debian"; a name that contains "ubuntu"
    or "debian" and not "alpine" yields the debian family (debian base image,
    debian tool list, apt-get install command); every other name yields the
    alpine family. *)
Theorem classifier_alpine_first (ul : pystr -> pystr) (r : record) :
  let v := generate_dockerfile_vars ul r in
  if mentions ul (str "alpine") (name r) then alpine_family v
  else if mentions ul (str "ubuntu") (name r) || mentions ul (str "debian") (name r)
       then debian_family v
       else alpine_family v.
Proof.
  intros v. subst v. unfold mentions.
  destruct (contains (str "alpine") (lower ul (name r))) eqn:Ea;
    [|destruct (contains (str "ubuntu") (lower ul (name r))
               || contains (str "debian") (lower ul (name r))) eqn:Eu].
  - apply alpine_base_is_alpine_family. unfold guess_base_image. cbv zeta.
    by rewrite Ea.
  - apply debian_base_is_debian_family. unfold guess_base_image. cbv zeta.
    by rewrite Ea, Eu.
  - apply alpine_base_is_alpine_family. unfold guess_base_image. cbv zeta.
    by rewrite Ea, Eu.
Qed.

(** ** Output file names and service names *)

(** C3, as the claim states it, fails: the output file name of the record
    (library, curl) is [Dockerfile.library_curl], which contains a dot. *)
Lemma dockerfile_name_has_dot :
  dockerfile_name (curl_record (str "images.json")) = str "Dockerfile.library_curl" /\
  46 ∈ dockerfile_name (curl_record (str "images.json")).
Proof.
  split; [done|]. refine (bool_decide_unpack _ _). by vm_compute.
Qed.

(** C3, amended: for every record, the sanitized key after which the
    Dockerfile is named contains no '/', ':' or '.': it is the key
    namespace_name with every slash, colon and dot replaced by an
    underscore. The file name is that sanitized key behind the fixed prefix
    [Dockerfile.], and contains no '/' and no ':'. *)
Theorem safe_name_sanitized (r : record) :
  (47 ∉ safe_name r) /\ (58 ∉ safe_name r) /\ (46 ∉ safe_name r) /\
  safe_name r =
    ((fun c => if bool_decide (c = 47 \/ c = 58 \/ c = 46) then 95 else c)
       <$> (namespace r ++ str "_" ++ name r)) /\
  dockerfile_name r = str "Dockerfile." ++ safe_name r /\
  (47 ∉ dockerfile_name r) /\ (58 ∉ dockerfile_name r).
Proof.
  assert (47 ∉ safe_name r) as H47.
  { unfold safe_name.
    do 2 (apply replace_char_keeps_out; [done|]). by apply replace_char_removes. }
  assert (58 ∉ safe_name r) as H58.
  { unfold safe_name.
    apply replace_char_keeps_out; [done|]. by apply replace_char_removes. }
  split; [done|]. split; [done|]. split.
  { unfold safe_name. by apply replace_char_removes. }
  split.
  { unfold safe_name, replace_char. rewrite <- !list_fmap_compose.
    apply list_fmap_ext. intros _ c _. simpl.
    repeat case_bool_decide; subst; try done; intuition congruence. }
  split; [done|]. unfold dockerfile_name.
  split; intros [Hin|Hin]%elem_of_app; try done;
    revert Hin; refine (bool_decide_unpack _ _); by vm_compute.
Qed.

(** C5: the service name derived from any record consists of lowercase
    letters a-z, digits, underscores and hyphens only, and so does every
    service name that a run of [process_json_files] returns. *)
Theorem service_names_dns_safe (ul : pystr -> pystr) (fv : json -> pystr)
    (fs : list json_file) :
  (forall r, Forall dns_safe (service_name (make_service_info ul r))) /\
  match result (process_json_files ul fv fs) with
  | Returns l => Forall (fun info => Forall dns_safe (service_name info)) l
  | Raises _ => True
  end.
Proof.
  split.
  - intros r. apply sanitize_service_name_safe.
  - destruct (result (process_json_files ul fv fs)) as [l|e] eqn:Hr; [|done].
    apply process_json_files_result in Hr as [rs ->].
    apply Forall_fmap, Forall_true. intros r. apply sanitize_service_name_safe.
Qed.

(** ** Runs without input *)

(** C8: when the input directory holds no [*.json] file, the processing
    function returns the empty list, and [main] then writes no file at all,
    hence no compose file, and ends with the message that no service was
    generated. *)
Theorem no_json_files_no_compose (ul : pystr -> pystr) (fv : json -> pystr) :
  process_json_files ul fv [] = ([Print MsgNoJsonFiles], Returns []) /\
  main ul fv (Some []) =
    ([Mkdir; Print MsgNoJsonFiles; Print MsgNoServices], Returns tt) /\
  written_files (trace (main ul fv (Some []))) = [] /\
  file_system (trace (main ul fv (Some []))) !! compose_file_name = None.
Proof. repeat split. Qed.

(** ** De-duplication *)

(** A second record with the key of a first one is not kept. *)
Lemma dedup_same_key_pair (r : record) (desc : json) (src : pystr) :
  dedup [r; Record_ (name r) (namespace r) desc src] = [r].
Proof.
  rewrite dedup_dedup_from. simpl. fold (key r).
  rewrite bool_decide_eq_false_2 by apply not_elem_of_empty.
  assert (key (Record_ (name r) (namespace r) desc src) = key r) as -> by done.
  rewrite bool_decide_eq_true_2; [done|].
  apply elem_of_union_l. by apply elem_of_singleton.
Qed.

(** Two items with one key, in one file: one Dockerfile, that of the first
    item, and one service entry. *)
Example duplicate_items_example (ul : pystr -> pystr) (fv : json -> pystr) :
  let run :=
    process_json_files ul fv [sample_file (JArr [curl_item; curl_item_again])] in
  written_files (trace run) =
    [(str "Dockerfile.library_curl",
      generate_dockerfile ul fv (curl_record (str "images.json")))] /\
  result run = Returns [make_service_info ul (curl_record (str "images.json"))].
Proof. by vm_compute. Qed.

(** ** The documented example *)

(** C4: for the input record whose name is curl, whose namespace is library
    and whose description is test, the run writes a Dockerfile named
    [Dockerfile.library_curl]; among its lines are [FROM alpine:latest] and
    the install line, the [RUN] instruction whose command begins with
    [apk add --no-cache]; the compose document, written next, has a service
    block named [library_curl] whose dockerfile field is
    [Dockerfile.library_curl]. *)
Theorem curl_example (ul : pystr -> pystr) (fv : json -> pystr)
    (path fname : pystr) :
  let run := main ul fv (Some [JsonFile path fname (Loaded curl_item)]) in
  let content := generate_dockerfile ul fv (curl_record fname) in
  let install := generate_dockerfile_vars ul (curl_record fname) in
  let compose := compose_content [make_service_info ul (curl_record fname)] in
  result run = Returns tt /\
  written_files (trace run) =
    [(str "Dockerfile.library_curl", content); (compose_file_name, compose)] /\
  str "FROM alpine:latest" ∈ lines content /\
  (str "RUN " ++ install_cmd install) ∈ lines content /\
  starts_with (str "apk add --no-cache ") (install_cmd install) = true /\
  take 4 (drop 1 (lines compose)) =
    [str "  library_curl:"; str "    build:"; str "      context: .";
     str "      dockerfile: Dockerfile.library_curl"] /\
  service_name (make_service_info ul (curl_record fname)) = str "library_curl".
Proof.
  repeat split.
  - refine (bool_decide_unpack _ _). by vm_compute.
  - refine (bool_decide_unpack _ _). by vm_compute.
Qed.

(** ** Errors *)

Lemma main_some (ul : pystr -> pystr) (fv : json -> pystr) (fs : list json_file) :
  main ul fv (Some fs) =
  (emit Mkdir ≫= fun _ =>
   process_json_files ul fv fs ≫= fun service_info_list =>
     match service_info_list with
     | _ :: _ =>
         generate_docker_compose service_info_list;;
         print (MsgSummary (length service_info_list));;
         print MsgUsage;; print MsgUsageCd;; print MsgUsageUp
     | [] => print MsgNoServices
     end).
Proof. done. Qed.

Lemma same_outcome_main (ul : pystr -> pystr) (fv : json -> pystr)
    (fs1 fs2 : list json_file) :
  same_outcome (process_json_files ul fv fs1) (process_json_files ul fv fs2) ->
  same_outcome (main ul fv (Some fs1)) (main ul fv (Some fs2)).
Proof.
  intros H. rewrite !main_some, !bind_emit.
  apply (same_outcome_bind _ _
    (fun service_info_list : list service_info =>
       match service_info_list with
       | _ :: _ =>
           generate_docker_compose service_info_list;;
           print (MsgSummary (length service_info_list));;
           print MsgUsage;; print MsgUsageCd;; print MsgUsageUp
       | [] => print MsgNoServices
       end)) in H.
  destruct H as [Hr Hw]. split; [done|]. unfold trace in *. cbn [fst snd].
  set (m1 := process_json_files ul fv fs1 ≫= _) in *.
  set (m2 := process_json_files ul fv fs2 ≫= _) in *.
  change (Mkdir :: m1.1) with ([Mkdir] ++ m1.1).
  change (Mkdir :: m2.1) with ([Mkdir] ++ m2.1).
  by rewrite !written_files_app, Hw.
Qed.

Lemma same_outcome_skip_invalid (pre post : list json_file)
    (path fname err : pystr) (acc : list record) :
  same_outcome
    (for_each load_file (pre ++ JsonFile path fname (LoadError err) :: post) acc)
    (for_each load_file (pre ++ post) acc).
Proof.
  rewrite !for_each_app.
  destruct (for_each load_file pre acc) as [t [s|e]]; [|done].
  rewrite !bind_returns, for_each_cons, load_file_invalid, bind_returns.
  split; simpl; [done|]. by rewrite !written_files_app.
Qed.

(** C6, as the claim states it, fails: the three listed ways are not all,
    and a missing input directory is not the only fatal error. With the
    input directory present and every file parseable JSON, [main] ends with
    [AttributeError] for a numeric name and with [ValueError] for a name with
    a NUL; and a [*.json] entry that cannot be opened ends it with
    [OSError]. *)
Lemma present_directory_fatal_errors :
  result (main ascii_only_lower blank_format
            (Some [sample_file (JArr [curl_item; numeric_name_item])]))
    = Raises AttributeError /\
  result (main ascii_only_lower blank_format (Some [sample_file nul_item]))
    = Raises ValueError /\
  result (main ascii_only_lower blank_format (Some [unopenable_file]))
    = Raises OSError.
Proof. repeat split. Qed.

(** C6, amended: among the errors of a run, a missing input directory makes
    [main] raise [FileNotFoundError] before anything is processed; a file
    that is not parseable JSON is skipped with a warning and the loop goes on
    with the remaining files; and skipping it never aborts the run: loading,
    processing and [main] end as they do without that file and write the
    same files. These are not the only ways: errors that the program does
    not catch are fatal too, such as a [*.json] entry that cannot be opened
    (the exception of [open]) and a name that is not a string
    ([AttributeError]). *)
Theorem invalid_json_is_skipped (ul : pystr -> pystr) (fv : json -> pystr)
    (pre post : list json_file) (path fname err : pystr) (acc : list record)
    (e : exn) :
  let bad := JsonFile path fname (LoadError err) in
  main ul fv None = ([Mkdir], Raises FileNotFoundError) /\
  load_file acc bad =
    ([Print (MsgProcessing path); Print (MsgInvalidJson path err)], Returns acc) /\
  for_each load_file (bad :: post) acc =
    (Print (MsgProcessing path) :: Print (MsgInvalidJson path err)
       :: trace (for_each load_file post acc),
     result (for_each load_file post acc)) /\
  same_outcome (for_each load_file (pre ++ bad :: post) acc)
               (for_each load_file (pre ++ post) acc) /\
  same_outcome (process_json_files ul fv (pre ++ bad :: post))
               (process_json_files ul fv (pre ++ post)) /\
  same_outcome (main ul fv (Some (pre ++ bad :: post)))
               (main ul fv (Some (pre ++ post))) /\
  main ul fv (Some (JsonFile path fname (OpenError e) :: post)) =
    ([Mkdir; Print (MsgProcessing path)], Raises e) /\
  main ul fv (Some (JsonFile path fname (Loaded numeric_name_item) :: post)) =
    ([Mkdir; Print (MsgProcessing path)], Raises AttributeError).
Proof.
  intros bad.
  assert (same_outcome (process_json_files ul fv (pre ++ bad :: post))
                       (process_json_files ul fv (pre ++ post))) as Hp.
  { destruct pre as [|f pre].
    - destruct post as [|g post]; [done|].
      rewrite !app_nil_l, !process_json_files_cons.
      apply same_outcome_bind, (same_outcome_skip_invalid []).
    - rewrite <- !app_comm_cons, !process_json_files_cons.
      apply same_outcome_bind, (same_outcome_skip_invalid (f :: pre)). }
  subst bad. split; [done|]. split; [done|]. split.
  { by rewrite for_each_cons, load_file_invalid, bind_returns. }
  split; [apply same_outcome_skip_invalid|].
  split; [done|]. split; [by apply same_outcome_main|].
  split; done.
Qed.

(** C7, as the claim states it, fails: an item whose name is absent and
    whose namespace is the number 5 is not dropped; the loader raises and the
    items after it are not processed. *)
Lemma missing_name_numeric_namespace_raises :
  let f := sample_file (JArr [numeric_namespace_item; curl_item]) in
  field_blank numeric_namespace_item (str "name") = true /\
  load_item f [] numeric_namespace_item = ([], Raises AttributeError) /\
  for_each (load_item f) [numeric_namespace_item; curl_item] [] =
    ([], Raises AttributeError) /\
  result (main ascii_only_lower blank_format (Some [f])) = Raises AttributeError.
Proof. repeat split. Qed.

Lemma load_item_string_fields (f : json_file) (item : json)
    (all_records : list record) :
  field_not_string item (str "name") = false ->
  field_not_string item (str "namespace") = false ->
  load_item f all_records item =
  mret (if field_blank item (str "name") || field_blank item (str "namespace")
        then all_records
        else all_records ++ [record_of f item]).
Proof.
  intros Hname Hns.
  destruct item as [|b|z|x|s|l|d]; try reflexivity.
  unfold load_item, dict_get, record_of, field_text, field_blank.
  simpl in Hname, Hns.
  destruct (d !! str "name") as [[|?|?|?|s|?|?]|]; try discriminate Hname;
    destruct (d !! str "namespace") as [[|?|?|?|s'|?|?]|]; try discriminate Hns;
    unfold strip_method; cbn [default from_option id]; rewrite !bind_ret.
  - by destruct (is_empty (strip s)), (is_empty (strip s')).
  - by destruct (is_empty (strip s)).
  - done.
  - done.
Qed.

(** C7, amended: for every parsed item whose name and namespace, when
    present, are strings: if the name or the namespace is absent or is empty
    once surrounding whitespace is trimmed, the item is dropped and the
    loop goes on with the remaining items; every other item is kept, as the
    record of its trimmed name and namespace. *)
Theorem blank_fields_are_dropped (f : json_file) (item : json)
    (rest : list json) (all_records : list record) :
  field_not_string item (str "name") = false ->
  field_not_string item (str "namespace") = false ->
  for_each (load_item f) (item :: rest) all_records =
  for_each (load_item f) rest
    (if field_blank item (str "name") || field_blank item (str "namespace")
     then all_records
     else all_records ++ [record_of f item]).
Proof.
  intros Hname Hns.
  by rewrite for_each_cons, load_item_string_fields, bind_ret.
Qed.

Lemma blank_fields_are_dropped_witness :
  let f := sample_file (JArr [blank_name_item; curl_item]) in
  field_not_string blank_name_item (str "name") = false /\
  field_not_string blank_name_item (str "namespace") = false /\
  for_each (load_item f) [blank_name_item; curl_item] [] =
  for_each (load_item f) [curl_item] [].
Proof.
  intros f. split; [reflexivity|]. split; [reflexivity|].
  exact (blank_fields_are_dropped f blank_name_item [curl_item] []
           eq_refl eq_refl).
Defined.

Lemma load_item_not_string (f : json_file) (d : gmap pystr json)
    (all_records : list record) :
  field_not_string (JObj d) (str "name")
  || field_not_string (JObj d) (str "namespace") = true ->
  load_item f all_records (JObj d) = ([], Raises AttributeError).
Proof.
  unfold load_item, dict_get, field_not_string.
  destruct (d !! str "name") as [[|?|?|?|s|?|?]|];
    destruct (d !! str "namespace") as [[|?|?|?|s'|?|?]|];
    simpl; intros H; try discriminate H; reflexivity.
Qed.

(** C10: when an item is a dictionary whose name or namespace is present
    and is not a string, the loader raises [AttributeError] at the trimming
    instead of dropping the item: the loop over the items stops there, and
    [main] ends with that exception after the first progress line, without
    writing a file. *)
Theorem non_string_field_raises (ul : pystr -> pystr) (fv : json -> pystr)
    (f : json_file) (d : gmap pystr json) (rest : list json)
    (all_records : list record) :
  field_not_string (JObj d) (str "name")
  || field_not_string (JObj d) (str "namespace") = true ->
  load_item f all_records (JObj d) = ([], Raises AttributeError) /\
  for_each (load_item f) (JObj d :: rest) all_records =
    ([], Raises AttributeError) /\
  (forall path fname post,
     main ul fv (Some (JsonFile path fname (Loaded (JArr (JObj d :: rest))) :: post))
     = ([Mkdir; Print (MsgProcessing path)], Raises AttributeError)) /\
  (forall path fname post,
     main ul fv (Some (JsonFile path fname (Loaded (JObj d)) :: post))
     = ([Mkdir; Print (MsgProcessing path)], Raises AttributeError)).
Proof.
  intros H.
  assert (forall g acc, for_each (load_item g) (JObj d :: rest) acc
                        = ([], Raises AttributeError)) as Hloop.
  { intros g acc. by rewrite for_each_cons, load_item_not_string. }
  assert (forall g acc, for_each (load_item g) [JObj d] acc
                        = ([], Raises AttributeError)) as Hone.
  { intros g acc. by rewrite for_each_cons, load_item_not_string. }
  split; [by apply load_item_not_string|]. split; [apply Hloop|].
  split; intros path fname post; rewrite main_some,
    process_json_files_cons, for_each_cons.
  - assert (load_file [] (JsonFile path fname (Loaded (JArr (JObj d :: rest))))
            = ([Print (MsgProcessing path)], Raises AttributeError)) as ->.
    { unfold load_file. cbn [file_load file_path]. by rewrite Hloop. }
    by rewrite !bind_raises.
  - assert (load_file [] (JsonFile path fname (Loaded (JObj d)))
            = ([Print (MsgProcessing path)], Raises AttributeError)) as ->.
    { unfold load_file. cbn [file_load file_path]. by rewrite Hone. }
    by rewrite !bind_raises.
Qed.

Lemma non_string_field_raises_witness :
  field_not_string numeric_name_item (str "name")
  || field_not_string numeric_name_item (str "namespace") = true /\
  main ascii_only_lower blank_format
       (Some [sample_file (JArr [numeric_name_item; curl_item])])
  = ([Mkdir; Print (MsgProcessing (str "docker_hub_metadata/images.json"))],
     Raises AttributeError).
Proof.
  split; [reflexivity|].
  exact (proj1 (proj2 (proj2
    (non_string_field_raises ascii_only_lower blank_format
       (sample_file (JArr [numeric_name_item; curl_item]))
       numeric_name_dict [curl_item] [] eq_refl)))
    (str "docker_hub_metadata/images.json") (str "images.json") []).
Defined.

(** ** Collisions of sanitized keys *)

(** C9: the sanitized key is not injective on the de-duplication keys. The
    records (a.b, c) and (a, b_c) have different keys, so both survive
    de-duplication, and one sanitized key [a_b_c]: both Dockerfiles are
    written to [Dockerfile.a_b_c], where the second replaces the first, and
    the run returns two service entries with the service name [a_b_c]. *)
Theorem sanitized_key_collision (ul : pystr -> pystr) (fv : json -> pystr)
    (path fname : pystr) :
  let r1 := Record_ (str "c") (str "a.b") (JStr []) fname in
  let r2 := Record_ (str "b_c") (str "a") (JStr []) fname in
  let f := JsonFile path fname (Loaded (JArr [dotted_item; underscored_item])) in
  let run := process_json_files ul fv [f] in
  key r1 <> key r2 /\
  dedup [r1; r2] = [r1; r2] /\
  safe_name r1 = safe_name r2 /\
  written_files (trace run) =
    [(str "Dockerfile.a_b_c", generate_dockerfile ul fv r1);
     (str "Dockerfile.a_b_c", generate_dockerfile ul fv r2)] /\
  generate_dockerfile ul fv r1 <> generate_dockerfile ul fv r2 /\
  file_system (trace run) !! str "Dockerfile.a_b_c" =
    Some (generate_dockerfile ul fv r2) /\
  result run = Returns [make_service_info ul r1; make_service_info ul r2] /\
  service_name (make_service_info ul r1) = str "a_b_c" /\
  service_name (make_service_info ul r2) = str "a_b_c".
Proof.
  intros r1 r2 f run.
  split; [intros H; vm_compute in H; discriminate H|].
  split; [by vm_compute|]. split; [by vm_compute|].
  split; [by vm_compute|].
  split; [intros H; vm_compute in H; discriminate H|].
  split; [by vm_compute|]. split; [by vm_compute|].
  split; by vm_compute.
Qed.

(** ** Trimming *)

Lemma lstrip_app_nonspace (l m : pystr) (c : N) :
  is_space c = false -> lstrip (l ++ c :: m) = lstrip l ++ c :: m.
Proof.
  intros Hc. induction l as [|a l IH]; simpl.
  - by rewrite Hc.
  - destruct (is_space a); [apply IH | done].
Qed.

Lemma lstrip_idempotent (s : pystr) : lstrip (lstrip s) = lstrip s.
Proof.
  induction s as [|a s IH]; [done|]. simpl.
  destruct (is_space a) eqn:Ha; [done|]. simpl. by rewrite Ha.
Qed.

Lemma rstrip_app_nonspace (l m : pystr) (c : N) :
  is_space c = false -> rstrip (l ++ c :: m) = l ++ c :: rstrip m.
Proof.
  intros Hc. unfold rstrip.
  rewrite reverse_app, reverse_cons, <- app_assoc. simpl.
  rewrite lstrip_app_nonspace by done.
  rewrite reverse_app, reverse_cons, reverse_involutive, <- app_assoc. done.
Qed.

Lemma rstrip_idempotent (s : pystr) : rstrip (rstrip s) = rstrip s.
Proof. unfold rstrip. by rewrite reverse_involutive, lstrip_idempotent. Qed.

Lemma lstrip_length (s : pystr) : (length (lstrip s) <= length s)%nat.
Proof.
  induction s as [|a s IH]; simpl; [done|].
  destruct (is_space a); simpl; lia.
Qed.

Lemma lstrip_rstrip (s : pystr) : lstrip s = s -> lstrip (rstrip s) = rstrip s.
Proof.
  destruct s as [|c s]; [done|]. intros H.
  destruct (is_space c) eqn:Hc.
  - exfalso. simpl in H. rewrite Hc in H.
    pose proof (lstrip_length s) as Hlen. rewrite H in Hlen. simpl in Hlen. lia.
  - pose proof (rstrip_app_nonspace [] s c Hc) as E.
    change ([] ++ c :: s) with (c :: s) in E.
    change ([] ++ c :: rstrip s) with (c :: rstrip s) in E.
    rewrite E. simpl. by rewrite Hc.
Qed.

Lemma strip_idempotent (s : pystr) : strip (strip s) = strip s.
Proof.
  unfold strip.
  rewrite (lstrip_rstrip (lstrip s)) by apply lstrip_idempotent.
  apply rstrip_idempotent.
Qed.

Lemma strip_trimmed (s : pystr) : is_empty (strip s) = false -> trimmed (strip s).
Proof.
  intros H. split; [|apply strip_idempotent].
  intros E. by rewrite E in H.
Qed.

(** A text that starts with a visible character and ends with a visible
    character and a newline loses that newline, and nothing else. *)
Lemma strip_final_newline (a z : N) (mid : pystr) :
  is_space a = false -> is_space z = false ->
  strip (a :: mid ++ [z; 10]) = a :: mid ++ [z].
Proof.
  intros Ha Hz. unfold strip.
  assert (lstrip (a :: mid ++ [z; 10]) = a :: mid ++ [z; 10]) as ->.
  { simpl. by rewrite Ha. }
  pose proof (rstrip_app_nonspace (a :: mid) [10] z Hz) as E.
  rewrite <- app_comm_cons in E. rewrite E.
  assert (rstrip [10] = []) as -> by done.
  by rewrite <- app_comm_cons.
Qed.

(** ** The loader as a function of its input *)

Lemma item_ill_typed_is_dict (item : json) :
  item_well_typed item = false ->
  exists d, item = JObj d /\
    field_not_string (JObj d) (str "name")
    || field_not_string (JObj d) (str "namespace") = true.
Proof.
  unfold item_well_typed. intros H.
  destruct item as [|b|z|x|s|l|d]; try discriminate H.
  exists d. split; [done|].
  destruct (field_not_string (JObj d) (str "name")),
    (field_not_string (JObj d) (str "namespace")); done.
Qed.

Lemma load_item_outcome (f : json_file) (acc : list record) (item : json) :
  load_item f acc item =
  if item_well_typed item then mret (acc ++ item_records f item)
  else raise AttributeError.
Proof.
  destruct (item_well_typed item) eqn:Hw.
  - unfold item_well_typed in Hw. apply andb_true_iff in Hw as [H1 H2].
    apply negb_true_iff in H1, H2.
    rewrite load_item_string_fields by done. unfold item_records.
    destruct (field_blank item (str "name") || field_blank item (str "namespace"));
      by rewrite ?app_nil_r.
  - apply item_ill_typed_is_dict in Hw as [d [-> Hd]].
    by apply load_item_not_string.
Qed.

Lemma load_items_outcome (f : json_file) (items : list json) (acc : list record) :
  for_each (load_item f) items acc =
  if forallb item_well_typed items
  then mret (acc ++ (items ≫= item_records f))
  else raise AttributeError.
Proof.
  revert acc; induction items as [|item items IH]; intros acc.
  - rewrite for_each_nil. simpl. by rewrite app_nil_r.
  - rewrite for_each_cons, load_item_outcome. cbn [forallb].
    destruct (item_well_typed item); [|done].
    rewrite bind_ret, IH. cbn [andb].
    destruct (forallb item_well_typed items); [|done].
    by rewrite bind_cons, app_assoc.
Qed.

Lemma load_file_outcome (acc : list record) (f : json_file) :
  result (load_file acc f) =
    match file_failure f with
    | None => Returns (acc ++ file_records f)
    | Some e => Raises e
    end /\
  written_files (trace (load_file acc f)) = [].
Proof.
  unfold load_file, file_failure, file_records.
  destruct (file_load f) as [e|err|data].
  - done.
  - simpl. by rewrite app_nil_r.
  - fold (items_of data). rewrite load_items_outcome.
    by destruct (forallb item_well_typed (items_of data)).
Qed.

Lemma load_files_outcome (fs : list json_file) (acc : list record) :
  result (for_each load_file fs acc) =
    match load_failure fs with
    | None => Returns (acc ++ (fs ≫= file_records))
    | Some e => Raises e
    end /\
  written_files (trace (for_each load_file fs acc)) = [].
Proof.
  revert acc; induction fs as [|f fs IH]; intros acc.
  - rewrite for_each_nil. simpl. by rewrite app_nil_r.
  - rewrite for_each_cons. cbn [load_failure].
    destruct (load_file_outcome acc f) as [Hr Hw].
    destruct (load_file acc f) as [t [acc'|e]];
      unfold result, trace in Hr, Hw; cbn [fst snd] in Hr, Hw.
    + rewrite bind_returns. unfold trace, result. cbn [fst snd].
      destruct (IH acc') as [Hr' Hw']. unfold trace, result in Hr', Hw'.
      rewrite written_files_app, Hw, Hw', Hr'.
      destruct (file_failure f); [discriminate Hr|].
      injection Hr as ->. split; [|done].
      destruct (load_failure fs); [done|].
      by rewrite bind_cons, app_assoc.
    + rewrite bind_raises. destruct (file_failure f); [|discriminate Hr].
      by injection Hr as ->.
Qed.

(** When loading fails, so does [process_json_files], before any write. *)
Lemma process_json_files_load_fails (ul : pystr -> pystr) (fv : json -> pystr)
    (fs : list json_file) (e : exn) :
  load_failure fs = Some e ->
  result (process_json_files ul fv fs) = Raises e /\
  written_files (trace (process_json_files ul fv fs)) = [].
Proof.
  intros H. destruct fs as [|f fs]; [discriminate H|].
  rewrite process_json_files_cons.
  destruct (load_files_outcome (f :: fs) []) as [Hr Hw]. rewrite H in Hr.
  destruct (for_each load_file (f :: fs) []) as [t o];
    unfold result, trace in Hr, Hw; cbn [fst snd] in Hr, Hw. subst o.
  by rewrite bind_raises.
Qed.

(** When loading succeeds and every Dockerfile can be written,
    [process_json_files] returns the entries of the de-duplicated records. *)
Lemma process_json_files_returns (ul : pystr -> pystr) (fv : json -> pystr)
    (fs : list json_file) (all_records : list record) :
  result (for_each load_file fs []) = Returns all_records ->
  forallb (record_writable ul fv) (dedup all_records) = true ->
  result (process_json_files ul fv fs) =
    Returns (make_service_info ul <$> dedup all_records) /\
  written_files (trace (process_json_files ul fv fs)) =
    dockerfiles ul fv (dedup all_records).
Proof.
  intros Hl Hw. destruct fs as [|f fs].
  - injection Hl as <-. done.
  - rewrite process_json_files_cons.
    destruct (load_files_outcome (f :: fs) []) as [_ Hnw].
    destruct (for_each load_file (f :: fs) []) as [t o];
      unfold result, trace in Hl, Hnw; cbn [fst snd] in Hl, Hnw. subst o.
    rewrite bind_returns, for_each_emit_record by done.
    unfold trace, result. cbn [fst snd].
    by rewrite written_files_app, Hnw, written_files_record_events.
Qed.

Lemma written_files_cons_mkdir (t : list event) :
  written_files (Mkdir :: t) = written_files t.
Proof. done. Qed.

Lemma main_after_raises (ul : pystr -> pystr) (fv : json -> pystr)
    (fs : list json_file) (t : list event) (e : exn) :
  process_json_files ul fv fs = (t, Raises e) ->
  main ul fv (Some fs) = (Mkdir :: t, Raises e).
Proof. intros H. by rewrite main_some, bind_emit, H, bind_raises. Qed.

Lemma forallb_elem_of {A} (p : A -> bool) (l : list A) (x : A) :
  forallb p l = true -> x ∈ l -> p x = true.
Proof.
  intros H Hx. induction Hx as [x l|x y l Hx IH]; simpl in H;
    apply andb_true_iff in H as [H1 H2]; auto.
Qed.

Lemma load_failure_elem_of (fs : list json_file) (f : json_file) :
  load_failure fs = None -> f ∈ fs -> file_failure f = None.
Proof.
  intros H Hf. induction Hf as [f fs|f g fs Hf IH]; simpl in H.
  - by destruct (file_failure f).
  - destruct (file_failure g); [discriminate H|]. auto.
Qed.

Lemma field_text_trimmed (item : json) (field : pystr) :
  field_not_string item field = false ->
  field_blank item field = false -> trimmed (field_text item field).
Proof.
  unfold field_not_string, field_blank, field_text.
  destruct item as [|b|z|x|s|l|d]; try (intros _ H; discriminate H).
  destruct (d !! field) as [[|?|?|?|s|?|?]|]; intros H1 H2;
    try discriminate H1; try discriminate H2.
  by apply strip_trimmed.
Qed.

Lemma file_records_valid (fs : list json_file) (f : json_file) :
  f ∈ fs -> file_failure f = None -> Forall (record_valid fs) (file_records f).
Proof.
  intros Hf Hw. unfold file_records, file_failure in *.
  destruct (file_load f) as [e|err|data]; [done|done|].
  destruct (forallb item_well_typed (items_of data)) eqn:Hall;
    [|discriminate Hw].
  apply Forall_forall. intros r Hr.
  apply list_elem_of_bind in Hr as [item [Hr Hitem]]. unfold item_records in Hr.
  pose proof (forallb_elem_of _ _ _ Hall Hitem) as Hi.
  unfold item_well_typed in Hi. apply andb_true_iff in Hi as [H1 H2].
  apply negb_true_iff in H1, H2.
  destruct (field_blank item (str "name")) eqn:Hn; [by apply elem_of_nil in Hr|].
  destruct (field_blank item (str "namespace")) eqn:Hs;
    [by apply elem_of_nil in Hr|].
  apply list_elem_of_singleton in Hr as ->.
  split; [by apply field_text_trimmed|]. split; [by apply field_text_trimmed|].
  simpl. by apply list_elem_of_fmap_2.
Qed.

(** ** The loading loop as a whole *)

(** X1: when every [*.json] entry can be opened and every present name and
    namespace of every item is a string, the loading loop raises nothing and
    writes nothing, and it returns the records already collected followed by
    those of the files, file by file in the order of the files and item by
    item in the order of the items; a file that does not parse, an item that
    is no dictionary and an item with a blank name or namespace contribute
    no record. *)
Theorem load_returns_records_in_order (fs : list json_file) (acc : list record) :
  load_failure fs = None ->
  result (for_each load_file fs acc) = Returns (acc ++ (fs ≫= file_records)) /\
  written_files (trace (for_each load_file fs acc)) = [].
Proof.
  intros H. destruct (load_files_outcome fs acc) as [Hr Hw].
  by rewrite H in Hr.
Qed.

Lemma load_returns_records_in_order_witness :
  let fs := [sample_file (JArr [blank_name_item; curl_item; JInt 3; nginx_item]);
             broken_file; sample_file curl_item_again] in
  load_failure fs = None /\
  result (for_each load_file fs []) =
    Returns [curl_record (str "images.json"); nginx_record;
             Record_ (str "curl") (str "library") (JStr (str "again"))
                     (str "images.json")].
Proof.
  intros fs. split; [reflexivity|].
  exact (proj1 (load_returns_records_in_order fs [] eq_refl)).
Defined.

(** X3: when loading fails, because a [*.json] entry cannot be opened (the
    exception of [open]) or because a present name or namespace is not a
    string ([AttributeError]), whichever comes first in the order of the
    files, the
    run is all or nothing: [process_json_files] and [main] end with that
    exception, and no Dockerfile and no compose file has been written,
    whatever valid records precede or follow. *)
Theorem main_load_failure_run (ul : pystr -> pystr) (fv : json -> pystr)
    (fs : list json_file) (e : exn) :
  load_failure fs = Some e ->
  result (process_json_files ul fv fs) = Raises e /\
  result (main ul fv (Some fs)) = Raises e /\
  written_files (trace (main ul fv (Some fs))) = [].
Proof.
  intros H. destruct (process_json_files_load_fails ul fv fs e H) as [Hr Hw].
  destruct (process_json_files ul fv fs) as [t o] eqn:Hp.
  unfold result, trace in Hr, Hw. cbn [fst snd] in Hr, Hw. subst o.
  rewrite (main_after_raises ul fv fs _ _ Hp).
  split; [done|]. split; [done|].
  unfold trace. cbn [fst]. by rewrite written_files_cons_mkdir.
Qed.

Lemma main_load_failure_run_witness :
  let fs := [sample_file (JArr [curl_item; nginx_item]);
             sample_file (JArr [curl_item; numeric_name_item]);
             unopenable_file] in
  load_failure fs = Some AttributeError /\
  result (main ascii_only_lower blank_format (Some fs)) = Raises AttributeError /\
  written_files (trace (main ascii_only_lower blank_format (Some fs))) = [].
Proof.
  intros fs. split; [reflexivity|].
  exact (proj2 (main_load_failure_run ascii_only_lower blank_format fs
                  AttributeError eq_refl)).
Defined.

(** X4: every record that the loading loop returns has a name and a
    namespace that are not empty and carry no whitespace at either end, and
    its source file is the name of one of the input files. *)
Theorem loaded_records_valid (fs : list json_file) :
  match result (for_each load_file fs []) with
  | Returns rs => Forall (record_valid fs) rs
  | Raises _ => True
  end.
Proof.
  destruct (load_files_outcome fs []) as [Hr _]. rewrite Hr.
  destruct (load_failure fs) eqn:Hall; [done|]. simpl.
  apply Forall_forall. intros r Hr'.
  apply list_elem_of_bind in Hr' as [f [Hr' Hf]].
  pose proof (file_records_valid fs f Hf (load_failure_elem_of _ _ Hall Hf)) as Hv.
  rewrite Forall_forall in Hv. by apply Hv.
Qed.

(** ** More on de-duplication *)

Lemma dedup_from_unchanged (seen : gset (pystr * pystr)) (l : list record) :
  NoDup (key <$> l) -> (forall r, r ∈ l -> key r ∉ seen) -> dedup_from seen l = l.
Proof.
  revert seen; induction l as [|r l IH]; intros seen Hnd Hfresh; [done|].
  rewrite fmap_cons in Hnd. apply NoDup_cons in Hnd as [Hr Hnd]. simpl.
  rewrite bool_decide_eq_false_2 by (apply Hfresh; left).
  f_equal. apply IH; [done|]. intros r' Hr'.
  rewrite elem_of_union, elem_of_singleton. intros [Hk|Hk].
  - apply Hr. rewrite <- Hk. by apply list_elem_of_fmap_2.
  - by apply (Hfresh r'); [right|].
Qed.

Lemma dedup_from_filter (s1 s2 : gset (pystr * pystr)) (l : list record) :
  dedup_from (s1 ∪ s2) l = filter (fun r => key r ∉ s1) (dedup_from s2 l).
Proof.
  revert s2; induction l as [|r l IH]; intros s2; [done|]. simpl.
  destruct (decide (key r ∈ s2)) as [H2|H2].
  - rewrite (bool_decide_eq_true_2 (key r ∈ s2)) by done.
    rewrite bool_decide_eq_true_2 by (by apply elem_of_union_r). apply IH.
  - rewrite (bool_decide_eq_false_2 (key r ∈ s2)) by done.
    destruct (decide (key r ∈ s1)) as [H1|H1].
    + rewrite bool_decide_eq_true_2 by (by apply elem_of_union_l).
      rewrite filter_cons_False by auto.
      rewrite <- IH. f_equal. apply set_eq. intros k.
      rewrite !elem_of_union, elem_of_singleton. intuition congruence.
    + rewrite bool_decide_eq_false_2
        by (rewrite elem_of_union; intuition).
      rewrite filter_cons_True by done. f_equal.
      rewrite <- IH. f_equal. apply set_eq. intros k.
      rewrite !elem_of_union, elem_of_singleton. intuition.
Qed.

Lemma dedup_from_app (seen : gset (pystr * pystr)) (l1 l2 : list record) :
  dedup_from seen (l1 ++ l2) =
  dedup_from seen l1 ++ dedup_from (list_to_set (key <$> l1) ∪ seen) l2.
Proof.
  revert seen; induction l1 as [|r l1 IH]; intros seen.
  - simpl. f_equal. apply set_eq. intros k.
    rewrite elem_of_union, elem_of_empty. intuition.
  - rewrite <- app_comm_cons. simpl. case_bool_decide as Hr.
    + rewrite IH. do 2 f_equal. apply set_eq. intros k.
      rewrite !elem_of_union, elem_of_singleton. intuition congruence.
    + rewrite IH, <- app_comm_cons. do 3 f_equal. apply set_eq. intros k.
      rewrite !elem_of_union, elem_of_singleton. intuition.
Qed.


(** X5: a list of records without two equal keys is left as it is. *)
Theorem dedup_unchanged_without_duplicates (l : list record) :
  NoDup (key <$> l) -> dedup l = l.
Proof.
  intros H. rewrite dedup_dedup_from.
  apply dedup_from_unchanged; [done|]. intros r _. apply not_elem_of_empty.
Qed.

Lemma dedup_unchanged_without_duplicates_witness :
  NoDup (key <$> [curl_record (str "images.json"); nginx_record]) /\
  dedup [curl_record (str "images.json"); nginx_record] =
    [curl_record (str "images.json"); nginx_record].
Proof.
  assert (NoDup (key <$> [curl_record (str "images.json"); nginx_record])) as H.
  { refine (bool_decide_unpack _ _). by vm_compute. }
  split; [exact H|].
  exact (dedup_unchanged_without_duplicates _ H).
Defined.

(** X6: de-duplication is idempotent. *)
Theorem dedup_idempotent (l : list record) : dedup (dedup l) = dedup l.
Proof.
  rewrite (dedup_dedup_from (dedup l)).
  apply dedup_from_unchanged.
  - rewrite dedup_dedup_from. apply dedup_from_NoDup.
  - intros r _. apply not_elem_of_empty.
Qed.

(** X7: de-duplication runs across the whole list: of two lists in a row,
    the first is de-duplicated by itself, and the second contributes its own
    de-duplicated records whose key does not occur in the first. So a record
    of a later file never replaces a record with the same key from an earlier
    file. *)
Theorem dedup_app (l1 l2 : list record) :
  dedup (l1 ++ l2) =
  dedup l1 ++ filter (fun r => key r ∉ key <$> l1) (dedup l2).
Proof.
  rewrite !dedup_dedup_from, dedup_from_app, dedup_from_filter. f_equal.
  apply list_filter_iff. intros r. by rewrite elem_of_list_to_set.
Qed.


(** ** More on names *)

Lemma lower_ascii (ul : pystr -> pystr) (s : pystr) :
  forallb is_ascii s = true -> lower ul s = ascii_lower <$> s.
Proof. intros H. unfold lower. by rewrite H. Qed.

Lemma dns_safe_ascii (s : pystr) : Forall dns_safe s -> forallb is_ascii s = true.
Proof.
  induction 1 as [|c s Hc _ IH]; [done|]. simpl. rewrite IH, andb_true_r.
  unfold is_ascii. apply N.ltb_lt. unfold dns_safe in Hc. lia.
Qed.

Lemma sanitize_dns_safe_char (c : N) :
  dns_safe c ->
  (if is_lower_az (ascii_lower c) || is_digit (ascii_lower c)
      || (ascii_lower c =? 45) || (ascii_lower c =? 95)
   then ascii_lower c else 95) = c.
Proof.
  intros Hc. unfold dns_safe in Hc.
  assert (ascii_lower c = c) as ->.
  { unfold ascii_lower.
    destruct (65 <=? c) eqn:E1, (c <=? 90) eqn:E2; simpl; try done.
    apply N.leb_le in E1, E2. lia. }
  unfold is_lower_az, is_digit.
  destruct (97 <=? c) eqn:E1, (c <=? 122) eqn:E2, (48 <=? c) eqn:E3,
    (c <=? 57) eqn:E4, (c =? 45) eqn:E5, (c =? 95) eqn:E6; simpl; try done;
    rewrite ?N.leb_gt, ?N.leb_le, ?N.eqb_neq in *; lia.
Qed.

Lemma sanitize_service_name_fixes_safe (ul : pystr -> pystr) (s : pystr) :
  Forall dns_safe s -> sanitize_service_name ul s = s.
Proof.
  intros H. unfold sanitize_service_name.
  rewrite lower_ascii by by apply dns_safe_ascii.
  rewrite <- list_fmap_compose.
  induction H as [|c s Hc _ IH]; [done|].
  rewrite fmap_cons, IH. f_equal. by apply sanitize_dns_safe_char.
Qed.

Lemma replace_char_absent (old new : N) (s : pystr) :
  old ∉ s -> replace_char old new s = s.
Proof.
  unfold replace_char. induction s as [|c s IH]; [done|].
  rewrite not_elem_of_cons. intros [Hc Hs].
  rewrite fmap_cons, IH by done. by rewrite bool_decide_eq_false_2 by done.
Qed.

Lemma dns_safe_not_elem (c : N) (s : pystr) :
  ~ dns_safe c -> Forall dns_safe s -> c ∉ s.
Proof.
  intros Hc Hs Hin. rewrite Forall_forall in Hs. by apply Hc, Hs.
Qed.

Lemma forallb_dns_safe (s : pystr) :
  forallb (fun c => is_lower_az c || is_digit c || (c =? 45) || (c =? 95)) s
  = true ->
  Forall dns_safe s.
Proof.
  induction s as [|c s IH]; [constructor|]. simpl.
  intros [Hc Hs]%andb_true_iff. constructor; [|by apply IH].
  unfold dns_safe, is_lower_az, is_digit in *.
  repeat (apply orb_true_iff in Hc as [Hc|Hc]).
  - apply andb_true_iff in Hc as [H1 H2]. apply N.leb_le in H1, H2. lia.
  - apply andb_true_iff in Hc as [H1 H2]. apply N.leb_le in H1, H2. lia.
  - apply N.eqb_eq in Hc. lia.
  - apply N.eqb_eq in Hc. lia.
Qed.

(** X9: sanitizing a service name is idempotent, whatever the Unicode case
    tables do: the sanitized name is pure ASCII in [a-z0-9_-], and such a
    name is mapped to itself. *)
Theorem sanitize_service_name_idempotent (ul : pystr -> pystr) (s : pystr) :
  sanitize_service_name ul (sanitize_service_name ul s)
  = sanitize_service_name ul s.
Proof. apply sanitize_service_name_fixes_safe, sanitize_service_name_safe. Qed.

(** X10: the sanitized key keeps the length of the key namespace_name: the
    three replacements are character for character, so the key is never
    empty and the Dockerfile name is never the bare prefix. *)
Theorem safe_name_length (r : record) :
  length (safe_name r) = (length (namespace r) + 1 + length (name r))%nat /\
  safe_name r <> [] /\
  dockerfile_name r <> str "Dockerfile.".
Proof.
  assert (length (safe_name r)
          = (length (namespace r) + 1 + length (name r))%nat) as Hlen.
  { unfold safe_name, replace_char. rewrite !length_fmap, !length_app.
    simpl. lia. }
  assert (safe_name r <> []) as Hne.
  { intros E. rewrite E in Hlen. simpl in Hlen. lia. }
  split; [done|]. split; [done|].
  unfold dockerfile_name. intros E.
  rewrite <- (app_nil_r (str "Dockerfile.")) in E at 2.
  by apply app_inv_head in E.
Qed.

(** X11: for a record whose namespace and name consist of lowercase
    letters, digits, underscores and hyphens, nothing is replaced: the
    service is named namespace_name, its Dockerfile
    [Dockerfile.namespace_name] and its container
    [escape-target-namespace_name]. *)
Theorem clean_record_service_info (ul : pystr -> pystr) (r : record) :
  Forall dns_safe (namespace r) -> Forall dns_safe (name r) ->
  let key_text := namespace r ++ str "_" ++ name r in
  safe_name r = key_text /\
  make_service_info ul r =
    ServiceInfo key_text (str "Dockerfile." ++ key_text)
                (str "escape-target-" ++ key_text).
Proof.
  intros Hns Hn key_text.
  assert (Forall dns_safe key_text) as Hk.
  { subst key_text. rewrite !Forall_app. split; [done|]. split; [|done].
    by apply forallb_dns_safe. }
  assert (safe_name r = key_text) as Hs.
  { unfold safe_name. fold key_text.
    rewrite (replace_char_absent 47), (replace_char_absent 58),
      (replace_char_absent 46); try done;
      (apply dns_safe_not_elem; [unfold dns_safe; lia | done]). }
  split; [done|]. unfold make_service_info. rewrite Hs.
  by rewrite sanitize_service_name_fixes_safe.
Qed.

Lemma clean_record_service_info_witness :
  Forall dns_safe (namespace nginx_record) /\
  Forall dns_safe (name nginx_record) /\
  make_service_info ascii_only_lower nginx_record =
    ServiceInfo (str "library_nginx") (str "Dockerfile.library_nginx")
                (str "escape-target-library_nginx").
Proof.
  assert (Forall dns_safe (namespace nginx_record)) as H1.
  { by apply forallb_dns_safe. }
  assert (Forall dns_safe (name nginx_record)) as H2.
  { by apply forallb_dns_safe. }
  split; [exact H1|]. split; [exact H2|].
  exact (proj2 (clean_record_service_info ascii_only_lower nginx_record H1 H2)).
Defined.

(** X12: no record gives its Dockerfile the name of the compose file, so
    the compose file and the Dockerfiles never overwrite one another. *)
Theorem dockerfile_name_not_compose (r : record) :
  dockerfile_name r <> compose_file_name.
Proof.
  intros H. apply (f_equal head) in H. vm_compute in H. discriminate H.
Qed.

(** ** The generated texts *)

Lemma compose_foldl (acc : pystr) (l : list service_info) :
  foldl (fun acc info => acc ++ compose_block info) acc l
  = acc ++ (l ≫= compose_block).
Proof.
  revert acc; induction l as [|info l IH]; intros acc; simpl.
  - by rewrite app_nil_r.
  - by rewrite IH, <- app_assoc.
Qed.

(** X13: the compose document is the line [services:] followed by one
    block per service entry, in the order of the entries; the document of a
    longer list extends the document of a shorter one. *)
Theorem compose_content_blocks (l1 l2 : list service_info) :
  compose_content l1 = (str "services:" ++ NL) ++ (l1 ≫= compose_block) /\
  compose_content (l1 ++ l2) = compose_content l1 ++ (l2 ≫= compose_block).
Proof.
  unfold compose_content. rewrite !compose_foldl. split; [done|].
  by rewrite bind_app, !app_assoc.
Qed.

Lemma generate_dockerfile_newline (ul : pystr -> pystr)
    (fv : json -> pystr) (r : record) :
  generate_dockerfile ul fv r ++ NL
  = dockerfile_template fv r (generate_dockerfile_vars ul r).
Proof.
  unfold generate_dockerfile, dockerfile_template.
  set (v := generate_dockerfile_vars ul r).
  change (str "# Escape target container (for research only)")
    with (35 :: str " Escape target container (for research only)").
  change (str "]") with [93]. change NL with [10].
  rewrite !app_assoc.
  match goal with
  | |- strip ((?W ++ [93]) ++ [10]) ++ _ = _ =>
      assert (exists mid, W = 35 :: mid) as [mid ->]
  end.
  { rewrite <- !app_assoc. rewrite <- app_comm_cons. eauto. }
  rewrite <- (app_assoc (35 :: mid) [93] [10]).
  change ([93] ++ [10]) with [93; 10].
  rewrite <- app_comm_cons, strip_final_newline by done.
  rewrite app_comm_cons, <- app_assoc. done.
Qed.

(** X14: the final [strip()] of [generate_dockerfile] removes the newline
    that ends the template and nothing else, whatever the record: the text
    begins with the comment sign and ends with the closing bracket of the
    [CMD] line, so a description is written as it is, with its own leading
    and trailing whitespace. *)
Theorem generate_dockerfile_drops_final_newline (ul : pystr -> pystr)
    (fv : json -> pystr) (r : record) :
  generate_dockerfile ul fv r ++ NL
  = dockerfile_template fv r (generate_dockerfile_vars ul r).
Proof. apply generate_dockerfile_newline. Qed.

(** ** The lines of a Dockerfile *)

Lemma split_on_nonempty (c : N) (s : pystr) : split_on c s <> [].
Proof.
  destruct s as [|a s]; simpl; [done|].
  case_bool_decide; [done|]. by destruct (split_on c s).
Qed.

Lemma split_on_app (c : N) (s t : pystr) :
  split_on c (s ++ c :: t) = split_on c s ++ split_on c t.
Proof.
  induction s as [|a s IH]; simpl.
  - by rewrite bool_decide_eq_true_2.
  - case_bool_decide; [by rewrite IH|].
    rewrite IH. pose proof (split_on_nonempty c s).
    by destruct (split_on c s).
Qed.

Lemma split_on_absent (c : N) (s : pystr) : c ∉ s -> split_on c s = [s].
Proof.
  induction s as [|a s IH]; [done|]. rewrite not_elem_of_cons. intros [Ha Hs].
  simpl. rewrite bool_decide_eq_false_2 by done. by rewrite IH.
Qed.

Lemma line_of_text (pre l post : pystr) :
  10 ∉ l -> l ∈ lines (pre ++ NL ++ l ++ NL ++ post).
Proof.
  intros Hl. unfold lines, NL.
  change (pre ++ [10] ++ l ++ [10] ++ post) with (pre ++ 10 :: (l ++ 10 :: post)).
  rewrite !split_on_app, (split_on_absent 10 l) by done.
  rewrite !elem_of_app, list_elem_of_singleton. auto.
Qed.

Lemma line_before_final_newline (l s : pystr) :
  l <> [] -> l ∈ lines (s ++ NL) -> l ∈ lines s.
Proof.
  unfold lines, NL. rewrite split_on_app. simpl.
  rewrite elem_of_app, list_elem_of_singleton. intuition.
Qed.

Lemma guess_base_image_cases (ul : pystr -> pystr) (n : pystr) :
  guess_base_image ul n = str "alpine:latest"
  \/ guess_base_image ul n = str "debian:bookworm-slim".
Proof.
  unfold guess_base_image. cbv zeta.
  destruct (contains (str "alpine") (lower ul n)); [by left|].
  destruct (contains (str "ubuntu") (lower ul n)
            || contains (str "debian") (lower ul n)); auto.
Qed.

(** X16: every generated Dockerfile, whatever the record and its
    description, has among its lines the [FROM] instruction of the guessed
    base image, which is one of [alpine:latest] and [debian:bookworm-slim],
    and the [RUN] instruction of the install command of that family. *)
Theorem dockerfile_has_from_and_install (ul : pystr -> pystr)
    (fv : json -> pystr) (r : record) :
  let v := generate_dockerfile_vars ul r in
  (alpine_family v \/ debian_family v) /\
  (str "FROM " ++ base_image v) ∈ lines (generate_dockerfile ul fv r) /\
  (str "RUN " ++ install_cmd v) ∈ lines (generate_dockerfile ul fv r).
Proof.
  intros v.
  assert (alpine_family v \/ debian_family v) as Hfam.
  { destruct (guess_base_image_cases ul (name r)) as [H|H];
      [left; by apply alpine_base_is_alpine_family
      |right; by apply debian_base_is_debian_family]. }
  assert ((10 ∉ str "FROM " ++ base_image v)
          /\ (10 ∉ str "RUN " ++ install_cmd v)) as [Hfrom Hrun].
  { destruct Hfam as [(Hb & _ & _ & Hc)|(Hb & _ & _ & Hc)]; rewrite Hb, Hc;
      split; refine (bool_decide_unpack _ _); by vm_compute. }
  split; [done|].
  split; apply line_before_final_newline; try done;
    rewrite generate_dockerfile_newline; fold v; unfold dockerfile_template.
  - set (pre := str "# Escape target container (for research only)" ++ NL ++
                str "# Based on: " ++ full_name v ++ NL ++
                str "# Description: " ++ format fv (description r) ++ NL).
    match goal with
    | |- _ ∈ lines ?t =>
        assert (exists post,
                  t = pre ++ NL ++ (str "FROM " ++ base_image v) ++ NL ++ post)
          as [post ->]
    end.
    { eexists. subst pre. rewrite <- !app_assoc. reflexivity. }
    by apply line_of_text.
  - set (pre := str "# Escape target container (for research only)" ++ NL ++
                str "# Based on: " ++ full_name v ++ NL ++
                str "# Description: " ++ format fv (description r) ++ NL ++
                NL ++
                str "FROM " ++ base_image v ++ NL ++
                NL ++
                str "LABEL org.security.dataset=" ++ DQ ++
                str "container-escape-target" ++ DQ ++ NL ++
                str "LABEL source.image=" ++ DQ ++ full_name v ++ DQ ++ NL).
    match goal with
    | |- _ ∈ lines ?t =>
        assert (exists post,
                  t = pre ++ NL ++ (str "RUN " ++ install_cmd v) ++ NL ++ post)
          as [post ->]
    end.
    { eexists. subst pre. rewrite <- !app_assoc. reflexivity. }
    by apply line_of_text.
Qed.

(** ** Case-insensitivity on ASCII names *)

Lemma ascii_lower_idempotent (c : N) : ascii_lower (ascii_lower c) = ascii_lower c.
Proof.
  unfold ascii_lower.
  destruct ((65 <=? c) && (c <=? 90)) eqn:E; [|by rewrite E].
  apply andb_true_iff in E as [E1 E2]. apply N.leb_le in E1, E2.
  assert ((c + 32 <=? 90) = false) as -> by (apply N.leb_gt; lia).
  by rewrite andb_false_r.
Qed.

Lemma ascii_lower_is_ascii (s : pystr) :
  forallb is_ascii s = true -> forallb is_ascii (ascii_lower <$> s) = true.
Proof.
  induction s as [|c s IH]; [done|]. rewrite fmap_cons. cbn [forallb].
  intros [Hc Hs]%andb_true_iff. rewrite IH, andb_true_r by done.
  unfold is_ascii, ascii_lower in *. apply N.ltb_lt in Hc. apply N.ltb_lt.
  destruct ((65 <=? c) && (c <=? 90)) eqn:E; [|done].
  apply andb_true_iff in E as [E1 E2]. apply N.leb_le in E1, E2. lia.
Qed.

(** X17: on a pure ASCII image name the classifier does not see the case
    of letters: the name and its lowercase form get the same base image, and
    a word is found in the name exactly when it is a substring of the
    lowercase form. *)
Theorem guess_base_image_ignores_ascii_case (ul : pystr -> pystr) (n w : pystr) :
  forallb is_ascii n = true ->
  guess_base_image ul n = guess_base_image ul (ascii_lower <$> n) /\
  (mentions ul w n = true <->
   exists pre post, ascii_lower <$> n = pre ++ w ++ post).
Proof.
  intros H.
  assert (lower ul (ascii_lower <$> n) = lower ul n) as Hl.
  { rewrite !lower_ascii by auto using ascii_lower_is_ascii.
    rewrite <- list_fmap_compose. apply list_fmap_ext. intros _ c _. simpl.
    apply ascii_lower_idempotent. }
  split.
  - unfold guess_base_image. by rewrite Hl.
  - unfold mentions. rewrite lower_ascii by done. apply contains_substring.
Qed.

Lemma guess_base_image_ignores_ascii_case_witness :
  forallb is_ascii (str "Ubuntu-22.04") = true /\
  guess_base_image ascii_only_lower (str "Ubuntu-22.04") =
  guess_base_image ascii_only_lower (ascii_lower <$> str "Ubuntu-22.04").
Proof.
  split; [reflexivity|].
  exact (proj1 (guess_base_image_ignores_ascii_case ascii_only_lower
                  (str "Ubuntu-22.04") (str "ubuntu") eq_refl)).
Defined.

(** ** What can be written *)

Lemma forallb_Forall {A} (p : A -> bool) (l : list A) :
  forallb p l = true <-> Forall (fun x => p x = true) l.
Proof.
  induction l as [|x l IH]; simpl.
  - split; [constructor | done].
  - rewrite andb_true_iff, Forall_cons, IH. done.
Qed.

Lemma dns_safe_encodable (s : pystr) :
  Forall dns_safe s -> Forall (fun c => utf8_encodable c = true) s.
Proof.
  intros H. eapply Forall_impl; [exact H|].
  intros c Hc. unfold utf8_encodable, is_surrogate.
  assert ((55296 <=? c) = false) as -> by (apply N.leb_gt; unfold dns_safe in Hc; lia).
  done.
Qed.

Lemma replace_char_encodable (old : N) (s : pystr) :
  Forall (fun c => utf8_encodable c = true) s ->
  Forall (fun c => utf8_encodable c = true) (replace_char old 95 s).
Proof.
  intros H. unfold replace_char. apply Forall_fmap.
  eapply Forall_impl; [exact H|]. intros c Hc. simpl. by case_bool_decide.
Qed.

(** A Dockerfile quotes the namespace and the name of its record, so a
    record whose Dockerfile can be encoded has an encodable key. *)
Lemma record_writable_key (ul : pystr -> pystr) (fv : json -> pystr) (r : record) :
  record_writable ul fv r = true ->
  Forall (fun c => utf8_encodable c = true) (safe_name r).
Proof.
  unfold record_writable, writable.
  destruct (open_error (dockerfile_name r)); [done|].
  intros H%forallb_Forall.
  assert (Forall (fun c => utf8_encodable c = true)
            (generate_dockerfile ul fv r ++ NL)) as Ht.
  { apply Forall_app. split; [done|]. by repeat constructor. }
  rewrite generate_dockerfile_newline in Ht. unfold dockerfile_template in Ht.
  change (full_name (generate_dockerfile_vars ul r))
    with (namespace r ++ str "/" ++ name r) in Ht.
  rewrite !Forall_app in Ht.
  destruct Ht as (_ & _ & _ & (Hns & _ & Hname) & _).
  unfold safe_name. do 3 apply replace_char_encodable.
  rewrite !Forall_app. split; [done|]. split; [|done].
  by apply forallb_Forall.
Qed.

Lemma compose_block_encodable (info : service_info) :
  Forall (fun c => utf8_encodable c = true) (service_name info) ->
  Forall (fun c => utf8_encodable c = true) (dockerfile info) ->
  Forall (fun c => utf8_encodable c = true) (container_name info) ->
  Forall (fun c => utf8_encodable c = true) (compose_block info).
Proof.
  intros H1 H2 H3. unfold compose_block. rewrite !Forall_app.
  repeat split; try done; by apply forallb_Forall.
Qed.

(** The compose file can be written whenever the Dockerfiles could. *)
Lemma compose_writable (ul : pystr -> pystr) (fv : json -> pystr)
    (rs : list record) :
  forallb (record_writable ul fv) rs = true ->
  writable compose_file_name (compose_content (make_service_info ul <$> rs))
  = true.
Proof.
  intros H. unfold writable.
  assert (open_error compose_file_name = None) as -> by by vm_compute.
  apply forallb_Forall. unfold compose_content. rewrite compose_foldl.
  apply Forall_app. split; [by apply forallb_Forall|].
  apply Forall_bind, Forall_fmap, Forall_forall. intros r Hr. simpl.
  pose proof (record_writable_key ul fv r (forallb_elem_of _ _ _ H Hr)) as Hk.
  apply compose_block_encodable; unfold make_service_info;
    cbn [service_name dockerfile container_name].
  - apply dns_safe_encodable, sanitize_service_name_safe.
  - apply Forall_app. split; [by apply forallb_Forall | done].
  - apply Forall_app. split; [by apply forallb_Forall | done].
Qed.

Lemma main_after_returns (ul : pystr -> pystr) (fv : json -> pystr)
    (fs : list json_file) (t : list event) (l : list service_info) :
  process_json_files ul fv fs = (t, Returns l) ->
  writable compose_file_name (compose_content l) = true ->
  result (main ul fv (Some fs)) = Returns tt /\
  written_files (trace (main ul fv (Some fs))) =
    written_files t ++
    match l with
    | [] => []
    | _ :: _ => [(compose_file_name, compose_content l)]
    end.
Proof.
  intros H Hc. rewrite main_some, bind_emit, H, bind_returns.
  unfold result, trace. cbn [fst snd].
  rewrite written_files_cons_mkdir, written_files_app.
  destruct l as [|i l]; [done|].
  unfold generate_docker_compose. by rewrite write_file_writable.
Qed.

Lemma main_returns_outcome (ul : pystr -> pystr) (fv : json -> pystr)
    (fs : list json_file) (all_records : list record) :
  result (for_each load_file fs []) = Returns all_records ->
  forallb (record_writable ul fv) (dedup all_records) = true ->
  result (main ul fv (Some fs)) = Returns tt /\
  written_files (trace (main ul fv (Some fs))) =
    dockerfiles ul fv (dedup all_records) ++
    match dedup all_records with
    | [] => []
    | _ :: _ =>
        [(compose_file_name,
          compose_content (make_service_info ul <$> dedup all_records))]
    end.
Proof.
  intros Hl Hw.
  destruct (process_json_files_returns ul fv fs all_records Hl Hw) as [Hr Hf].
  destruct (process_json_files ul fv fs) as [t o] eqn:Hp.
  unfold result, trace in Hr, Hf. cbn [fst snd] in Hr, Hf. subst o.
  destruct (main_after_returns ul fv fs _ _ Hp (compose_writable ul fv _ Hw))
    as [Hr' Hw'].
  split; [done|]. rewrite Hw', Hf.
  by destruct (dedup all_records).
Qed.

Lemma load_returns_records (fs : list json_file) :
  load_failure fs = None ->
  result (for_each load_file fs []) = Returns (fs ≫= file_records).
Proof.
  intros H. destruct (load_files_outcome fs []) as [Hr _]. by rewrite H in Hr.
Qed.

(** ** Runs that return *)

(** X2: when every [*.json] entry can be opened, every present name and
    namespace of every item is a string and the Dockerfile of every
    de-duplicated record can be written (its name is accepted by [open] and
    its text has no surrogate), [main] returns normally; it writes one
    Dockerfile per de-duplicated record, in order, and then, if there is at
    least one record, the compose file with the service entries of exactly
    those records; with no record it writes nothing. *)
Theorem main_well_typed_run (ul : pystr -> pystr) (fv : json -> pystr)
    (fs : list json_file) :
  load_failure fs = None ->
  forallb (record_writable ul fv) (dedup (fs ≫= file_records)) = true ->
  let unique_records := dedup (fs ≫= file_records) in
  result (main ul fv (Some fs)) = Returns tt /\
  written_files (trace (main ul fv (Some fs))) =
    dockerfiles ul fv unique_records ++
    match unique_records with
    | [] => []
    | _ :: _ =>
        [(compose_file_name,
          compose_content (make_service_info ul <$> unique_records))]
    end.
Proof.
  intros Hl Hw unique_records.
  by apply main_returns_outcome; [apply load_returns_records|].
Qed.

Lemma main_well_typed_run_witness :
  let fs := [sample_file (JArr [curl_item; nginx_item; curl_item_again])] in
  load_failure fs = None /\
  forallb (record_writable ascii_only_lower blank_format)
          (dedup (fs ≫= file_records)) = true /\
  written_files (trace (main ascii_only_lower blank_format (Some fs))) =
    [(str "Dockerfile.library_curl",
      generate_dockerfile ascii_only_lower blank_format
        (curl_record (str "images.json")));
     (str "Dockerfile.library_nginx",
      generate_dockerfile ascii_only_lower blank_format nginx_record);
     (compose_file_name,
      compose_content
        [make_service_info ascii_only_lower (curl_record (str "images.json"));
         make_service_info ascii_only_lower nginx_record])].
Proof.
  intros fs.
  assert (forallb (record_writable ascii_only_lower blank_format)
                  (dedup (fs ≫= file_records)) = true) as Hw by by vm_compute.
  split; [reflexivity|]. split; [exact Hw|].
  exact (proj2 (main_well_typed_run ascii_only_lower blank_format fs eq_refl Hw)).
Defined.

Lemma dom_foldl_insert (l : list (pystr * pystr)) (m : gmap pystr pystr) :
  dom (foldl (fun fs w => <[w.1 := w.2]> fs) m l)
  = dom m ∪ list_to_set (l.*1).
Proof.
  revert m; induction l as [|w l IH]; intros m; simpl.
  - apply set_eq. intros k. rewrite elem_of_union, elem_of_empty. intuition.
  - rewrite IH, dom_insert_L. apply set_eq. intros k.
    rewrite !elem_of_union, elem_of_singleton. intuition.
Qed.

Lemma dom_file_system (t : list event) :
  dom (file_system t) = list_to_set ((written_files t).*1).
Proof.
  unfold file_system. rewrite dom_foldl_insert, dom_empty_L.
  apply set_eq. intros k. rewrite elem_of_union, elem_of_empty. intuition.
Qed.

(** X15: after a run on input that loads without an exception and whose
    Dockerfiles can all be written, the output directory holds the files it
    held before, the Dockerfiles of the de-duplicated records and, when there
    is at least one record, the compose file. The compose file then holds the
    document of the service entries of those records, and every file that
    the run did not write is as it was before. *)
Theorem output_directory_contents (ul : pystr -> pystr) (fv : json -> pystr)
    (fs : list json_file) (before : gmap pystr pystr) :
  load_failure fs = None ->
  forallb (record_writable ul fv) (dedup (fs ≫= file_records)) = true ->
  let unique_records := dedup (fs ≫= file_records) in
  let out := directory_after before (trace (main ul fv (Some fs))) in
  dom out =
    dom before ∪ list_to_set (dockerfile_name <$> unique_records) ∪
    (match unique_records with [] => ∅ | _ :: _ => {[compose_file_name]} end) /\
  out !! compose_file_name =
    match unique_records with
    | [] => before !! compose_file_name
    | _ :: _ => Some (compose_content (make_service_info ul <$> unique_records))
    end /\
  (forall file,
     file ∉ dockerfile_name <$> unique_records -> file <> compose_file_name ->
     out !! file = before !! file).
Proof.
  intros Hl Hwr unique_records out. subst out. unfold directory_after.
  destruct (main_returns_outcome ul fv fs _ (load_returns_records fs Hl) Hwr)
    as [_ Hw].
  fold unique_records in Hw.
  assert (dom (file_system (trace (main ul fv (Some fs)))) =
          list_to_set (dockerfile_name <$> unique_records) ∪
          (match unique_records with
           | [] => ∅ | _ :: _ => {[compose_file_name]} end)) as Hdom.
  { rewrite dom_file_system, Hw, fmap_app. unfold dockerfiles.
    rewrite <- list_fmap_compose. apply set_eq. intros k.
    rewrite list_to_set_app_L, !elem_of_union, !elem_of_list_to_set.
    destruct unique_records; simpl.
    - rewrite !elem_of_nil, elem_of_empty. intuition.
    - rewrite list_elem_of_singleton, elem_of_singleton. intuition. }
  split; [|split].
  - rewrite dom_union_L, Hdom. apply set_eq. intros k.
    rewrite !elem_of_union. intuition.
  - destruct unique_records as [|r rs] eqn:E.
    + apply lookup_union_r. apply not_elem_of_dom. rewrite Hdom.
      rewrite elem_of_union, elem_of_list_to_set, fmap_nil, elem_of_nil,
        elem_of_empty. intuition.
    + apply lookup_union_Some_l. unfold file_system. rewrite Hw, foldl_app.
      simpl. by rewrite lookup_insert_eq.
  - intros file Hd Hc. apply lookup_union_r. apply not_elem_of_dom.
    rewrite Hdom, elem_of_union, elem_of_list_to_set.
    intros [H|H]; [done|]. destruct unique_records.
    + by apply elem_of_empty in H.
    + by apply elem_of_singleton in H.
Qed.

Lemma output_directory_contents_witness :
  let fs := [sample_file (JArr [curl_item; nginx_item; curl_item_again])] in
  let before : gmap pystr pystr := {[ str "notes.txt" := str "kept" ]} in
  load_failure fs = None /\
  forallb (record_writable ascii_only_lower blank_format)
          (dedup (fs ≫= file_records)) = true /\
  directory_after before (trace (main ascii_only_lower blank_format (Some fs)))
    !! compose_file_name =
  Some (compose_content
          [make_service_info ascii_only_lower (curl_record (str "images.json"));
           make_service_info ascii_only_lower nginx_record]).
Proof.
  intros fs before.
  assert (forallb (record_writable ascii_only_lower blank_format)
                  (dedup (fs ≫= file_records)) = true) as Hw by by vm_compute.
  split; [reflexivity|]. split; [exact Hw|].
  exact (proj1 (proj2 (output_directory_contents ascii_only_lower blank_format
                         fs before eq_refl Hw))).
Defined.

(** ** De-duplication in a run *)

(** C2, as the claim states it, fails: two items with the namespace
    library and a name that holds a NUL character load as two records with
    one key, and they produce no Dockerfile and no compose service entry:
    [open] refuses the file name, and the run ends with [ValueError]. *)
Lemma duplicate_unwritable_records :
  let fs := [sample_file (JArr [nul_item; nul_item])] in
  result (for_each load_file fs []) = Returns [nul_record; nul_record] /\
  dedup [nul_record; nul_record] = [nul_record] /\
  result (process_json_files ascii_only_lower blank_format fs)
    = Raises ValueError /\
  written_files (trace (process_json_files ascii_only_lower blank_format fs))
    = [] /\
  main ascii_only_lower blank_format (Some fs) =
    ([Mkdir; Print (MsgProcessing (str "docker_hub_metadata/images.json"))],
     Raises ValueError).
Proof. by vm_compute. Qed.

(** C2, amended: for every input record list, records are de-duplicated by
    the key (namespace, name): the resulting list holds each key once,
    preserves the input order, and keeps for each key the first occurrence.
    When the Dockerfile of every kept record can be written, a run whose
    files load as the record list writes exactly one Dockerfile and returns
    exactly one compose service entry per kept record, so that two records
    with an identical (namespace, name) pair produce exactly one Dockerfile
    and exactly one service entry, those of the first; [main] then writes the
    compose file with exactly these entries. *)
Theorem dedup_first_occurrence_wins (ul : pystr -> pystr) (fv : json -> pystr)
    (fs : list json_file) (all_records : list record) :
  result (for_each load_file fs []) = Returns all_records ->
  forallb (record_writable ul fv) (dedup all_records) = true ->
  let unique_records := dedup all_records in
  (forall l : list record,
     NoDup (key <$> dedup l) /\
     sublist (dedup l) l /\
     (forall k, with_key k (dedup l) = take 1 (with_key k l))) /\
  result (process_json_files ul fv fs) =
    Returns (make_service_info ul <$> unique_records) /\
  written_files (trace (process_json_files ul fv fs)) =
    ((fun r => (dockerfile_name r, generate_dockerfile ul fv r))
       <$> unique_records) /\
  result (main ul fv (Some fs)) = Returns tt /\
  written_files (trace (main ul fv (Some fs))) =
    ((fun r => (dockerfile_name r, generate_dockerfile ul fv r))
       <$> unique_records) ++
    match unique_records with
    | [] => []
    | _ :: _ =>
        [(compose_file_name,
          compose_content (make_service_info ul <$> unique_records))]
    end.
Proof.
  intros Hl Hw unique_records.
  assert (forall l : list record,
            NoDup (key <$> dedup l) /\ sublist (dedup l) l /\
            (forall k, with_key k (dedup l) = take 1 (with_key k l))) as Hpure.
  { intros l. rewrite dedup_dedup_from. split; [apply dedup_from_NoDup|].
    split; [apply dedup_from_sublist|]. intros k.
    rewrite dedup_from_with_key.
    by rewrite bool_decide_eq_false_2 by apply not_elem_of_empty. }
  split; [exact Hpure|].
  destruct (process_json_files_returns ul fv fs all_records Hl Hw) as [Hr Hf].
  destruct (main_returns_outcome ul fv fs all_records Hl Hw) as [Hr' Hf'].
  done.
Qed.

Lemma dedup_first_occurrence_wins_witness :
  let fs := [sample_file (JArr [curl_item; nginx_item; curl_item_again])] in
  let all_records :=
    [curl_record (str "images.json"); nginx_record;
     Record_ (str "curl") (str "library") (JStr (str "again"))
             (str "images.json")] in
  result (for_each load_file fs []) = Returns all_records /\
  forallb (record_writable ascii_only_lower blank_format) (dedup all_records)
    = true /\
  result (process_json_files ascii_only_lower blank_format fs) =
    Returns [make_service_info ascii_only_lower (curl_record (str "images.json"));
             make_service_info ascii_only_lower nginx_record] /\
  written_files (trace (process_json_files ascii_only_lower blank_format fs)) =
    [(str "Dockerfile.library_curl",
      generate_dockerfile ascii_only_lower blank_format
        (curl_record (str "images.json")));
     (str "Dockerfile.library_nginx",
      generate_dockerfile ascii_only_lower blank_format nginx_record)].
Proof.
  intros fs all_records.
  assert (forallb (record_writable ascii_only_lower blank_format)
                  (dedup all_records) = true) as Hw by by vm_compute.
  split; [reflexivity|]. split; [exact Hw|].
  pose proof (dedup_first_occurrence_wins ascii_only_lower blank_format
                fs all_records eq_refl Hw) as (_ & Hr & Hf & _).
  split; [exact Hr | exact Hf].
Defined.

(** ** Writes that fail *)

(** A lone surrogate in the description: the Dockerfile is created, the
    write raises, the file stays empty and no compose file follows. *)
Example surrogate_description_example :
  main ascii_only_lower blank_format
    (Some [sample_file
             (obj [(str "name", JStr (str "curl"));
                   (str "namespace", JStr (str "library"));
                   (str "description", JStr [55357])])]) =
  ([Mkdir; Print (MsgProcessing (str "docker_hub_metadata/images.json"));
    WriteFile (str "Dockerfile.library_curl") []],
   Raises UnicodeEncodeError).
Proof. by vm_compute. Qed.

(** A name of 300 letters: [open] refuses the file name, nothing is
    written. *)
Example long_name_example :
  main ascii_only_lower blank_format
    (Some [sample_file
             (obj [(str "name", JStr (replicate 300 97));
                   (str "namespace", JStr (str "library"))])]) =
  ([Mkdir; Print (MsgProcessing (str "docker_hub_metadata/images.json"))],
   Raises OSError).
Proof. by vm_compute. Qed.

(** A record that cannot be written after one that can: the first
    Dockerfile stays, the run ends with the exception, and no compose file is
    written. *)
Example second_write_fails_example :
  main ascii_only_lower blank_format
    (Some [sample_file (JArr [nginx_item; nul_item])]) =
  ([Mkdir; Print (MsgProcessing (str "docker_hub_metadata/images.json"));
    WriteFile (str "Dockerfile.library_nginx")
      (generate_dockerfile ascii_only_lower blank_format nginx_record);
    Print (MsgGenerated (str "Dockerfile.library_nginx"))],
   Raises ValueError).
Proof. by vm_compute. Qed.
